(** * Hybrid retrieval, ranking and access control of the RAG backend

    A shallow embedding of the retrieval core of [server.js]:
    [preprocessQuery], [filterChunksByPermissions], [performHybridSearch]
    and the handlers of [/api/retrieve] and [/api/conversation/:sessionId],
    together with the properties the specification states about them.

    Conventions of the embedding.
    - JavaScript strings are [string]s over ASCII; [toLowerCase], [trim] and
      the character classes [\s] and [\w] are the ASCII ones.
    - Scores are JavaScript numbers; they are modelled as exact rationals
      [Q].  Only products by constants and comparisons are used on them.
    - A [Map] or [Set], whose iteration order is the insertion order, is a
      list in that order; the process-wide [conversationSessions] map, whose
      order is never observed by the handlers modelled here, is a [gmap].
    - Calls that leave the process (Neo4j queries, the answer generator, the
      audit log, the clock) are fields of an environment record. *)

From Stdlib Require Import Ascii String QArith Qminmax Lqa.
From stdpp Require Import gmap strings list fin_maps.

Local Open Scope string_scope.
Local Open Scope list_scope.

(** ** JavaScript string and array primitives *)

Module Js.

Definition lower_ascii (c : ascii) : ascii :=
  let n := nat_of_ascii c in
  if (65 <=? n)%nat && (n <=? 90)%nat then ascii_of_nat (n + 32) else c.

(** [s.toLowerCase()] *)
Fixpoint toLowerCase (s : string) : string :=
  match s with
  | EmptyString => EmptyString
  | String c s' => String (lower_ascii c) (toLowerCase s')
  end.

(** [s.includes(sub)] on strings *)
Fixpoint includes (s sub : string) : bool :=
  String.prefix sub s ||
  match s with
  | EmptyString => false
  | String _ s' => includes s' sub
  end.

(** [arr.includes(x)] on arrays of strings *)
Definition arr_includes (arr : list string) (x : string) : bool :=
  existsb (String.eqb x) arr.

(** the class [\s], restricted to ASCII *)
Definition is_space (c : ascii) : bool :=
  let n := nat_of_ascii c in
  (n =? 32)%nat || ((9 <=? n)%nat && (n <=? 13)%nat).

(** the class [\w] *)
Definition is_word (c : ascii) : bool :=
  let n := nat_of_ascii c in
  ((48 <=? n)%nat && (n <=? 57)%nat) ||
  ((65 <=? n)%nat && (n <=? 90)%nat) ||
  ((97 <=? n)%nat && (n <=? 122)%nat) ||
  (n =? 95)%nat.

Fixpoint trimStart (s : string) : string :=
  match s with
  | EmptyString => EmptyString
  | String c s' => if is_space c then trimStart s' else s
  end.

Fixpoint trimEnd (s : string) : string :=
  match s with
  | EmptyString => EmptyString
  | String c s' =>
      match trimEnd s' with
      | EmptyString => if is_space c then EmptyString else String c EmptyString
      | t => String c t
      end
  end.

(** [s.trim()] *)
Definition trim (s : string) : string := trimEnd (trimStart s).

(** [s.replace(/[^\w\s]/g, r)] where [r] is [" "] or [""] *)
Fixpoint replace_punct (r : string) (s : string) : string :=
  match s with
  | EmptyString => EmptyString
  | String c s' =>
      if is_word c || is_space c then String c (replace_punct r s')
      else r ++ replace_punct r s'
  end.

(** [s.split(/\s+/)]: the pieces between maximal runs of white space; a
    leading or trailing run leaves an empty piece at that end. *)
Fixpoint split_ws_from (cur : string) (skipping : bool) (s : string)
  : list string :=
  match s with
  | EmptyString => [cur]
  | String c s' =>
      if is_space c then
        if skipping then split_ws_from cur true s'
        else cur :: split_ws_from EmptyString true s'
      else split_ws_from (cur ++ String c EmptyString) false s'
  end.

Definition split_ws (s : string) : list string :=
  split_ws_from EmptyString false s.

(** [arr.join(sep)] *)
Fixpoint join (sep : string) (arr : list string) : string :=
  match arr with
  | [] => EmptyString
  | [x] => x
  | x :: rest => x ++ sep ++ join sep rest
  end.

(** [arr.slice(-n)]: the last [n] elements *)
Definition slice_last {A} (n : nat) (arr : list A) : list A :=
  drop (length arr - n) arr.

(** [arr.slice(0, n)] *)
Definition slice_first {A} (n : nat) (arr : list A) : list A :=
  take n arr.

End Js.

(** ** Data model *)

(** A chunk as built from a Neo4j record.  [finalScore] is absent until the
    ranking has run ([None] is JavaScript's [undefined]). *)
Record Chunk := mkChunk {
  text : string;
  id : string;
  access_level : string;
  departments : list string;
  score : Q;
  searchType : string;
  finalScore : option Q
}.

(** A user identifier is the primary key [users.id], a UUID.  The server
    only compares identifiers for equality and tests them for truthiness,
    and a UUID string is truthy; any type with a decidable equality stands
    for it. *)
Definition UserId := positive.

(** [req.user], as built by [authenticateToken]. *)
Record User := mkUser {
  user_id : UserId;
  username : string;
  role : string;
  accessLevel : Z;
  department : option string
}.

(** ** The permission filter *)

(** The callback of the second [filter] of [filterChunksByPermissions]. *)
Definition chunkAllowed (user : User) (chunk : Chunk) : bool :=
  let accessLevel_ := access_level chunk in
  let departments_ := departments chunk in
  let userDept :=
    match department user with
    | Some d => Js.toLowerCase d
    | None => ""
    end in
  if String.eqb (role user) "admin" then true
  else if String.eqb accessLevel_ "public" then true
  else if String.eqb accessLevel_ "departmental" then
    existsb (fun dept => String.eqb (Js.toLowerCase dept) userDept) departments_
  else if String.eqb accessLevel_ "internal" then
    let isManager := String.eqb (role user) "manager" || (2 <=? accessLevel user)%Z in
    let isFinance := String.eqb userDept "finance" in
    let hasManagementAccess := Js.arr_includes departments_ "management" && isManager in
    let hasFinanceAccess := Js.arr_includes departments_ "finance" && isFinance in
    hasManagementAccess || hasFinanceAccess
  else if String.eqb accessLevel_ "confidential" then
    String.eqb (role user) "admin" || (3 <=? accessLevel user)%Z
  else false.

Definition filterChunksByPermissions (chunks : list Chunk) (user : option User)
  : list Chunk :=
  match user with
  | None => List.filter (fun chunk => String.eqb (access_level chunk) "public") chunks
  | Some u => List.filter (chunkAllowed u) chunks
  end.

(** ** Query preprocessing *)

(** The regular expressions of the source.  Each field stands for one
    [match] or [test] of a fixed pattern on an already lower-cased text. *)
Record Patterns := mkPatterns {
  (* [lowerQ.match(/\b(january|...|december)\s+\d{4}\b/g) || []] *)
  match_dates : string -> list string;
  (* [lowerQ.match(/\b(paul\s+freeman|freeman|...)\b/g) || []] *)
  match_people : string -> list string;
  match_companies : string -> list string;
  match_events : string -> list string;
  match_years : string -> list string;
  (* [/how much|how many|what.*amount|total|...|charity/.test(questionLower)] *)
  monetary_question : string -> bool;
  (* the sum, over the six [monetaryPatterns], of the number of matches *)
  monetary_matches : string -> nat;
  (* [/charitable support|charitable donation|.../gi.test(resultText)] *)
  charity_mention : string -> bool;
  (* [/decade|past.*year|over.*year/gi.test(resultText)] *)
  decade_mention : string -> bool
}.

Record Entities := mkEntities {
  dates : list string;
  people : list string;
  companies : list string;
  events : list string;
  years : list string
}.

Record QueryInfo := mkQueryInfo {
  originalQuery : string;
  entities : Entities;
  keywords : string;
  processedQuery : string
}.

Definition stopWords : list string :=
  ["what"; "when"; "who"; "where"; "why"; "how"; "is"; "are"; "was"; "were";
   "did"; "do"; "does"; "the"; "a"; "an"; "and"; "or"; "but"; "in"; "on";
   "at"; "to"; "for"; "of"; "with"; "by"].

Definition preprocessQuery (P : Patterns) (question : string) : QueryInfo :=
  let lowerQ := Js.toLowerCase question in
  let entities_ :=
    {| dates := match_dates P lowerQ;
       people := match_people P lowerQ;
       companies := match_companies P lowerQ;
       events := match_events P lowerQ;
       years := match_years P lowerQ |} in
  let keywords_ :=
    Js.join " OR "
      (List.filter
         (fun word => (2 <? String.length word)%nat && negb (Js.arr_includes stopWords word))
         (Js.split_ws (Js.replace_punct " " (Js.toLowerCase question)))) in
  {| originalQuery := question;
     entities := entities_;
     keywords := if String.eqb keywords_ "" then question else keywords_;
     processedQuery := lowerQ |}.

(** ** The knowledge store *)

(** One record of a Neo4j result; a missing [departments] is read as []. *)
Record Row := mkRow {
  row_text : string;
  row_id : string;
  row_access_level : string;
  row_departments : list string;
  row_score : Q
}.

(** What [await session.run(...)] does: it yields records or throws. *)
Inductive Run :=
| Records (rows : list Row)
| Failed (message : string).

(** The three queries [performHybridSearch] sends.  The question stands for
    its embedding, which is a function of it. *)
Record Neo4j := mkNeo4j {
  vectorQuery : nat -> string -> Run;
  keywordQuery : nat -> string -> Run;
  fallbackQuery : string -> Run
}.

Definition chunk_of_row (tag : string) (r : Row) : Chunk :=
  {| text := row_text r;
     id := row_id r;
     access_level := row_access_level r;
     departments := row_departments r;
     score := row_score r;
     searchType := tag;
     finalScore := None |}.

(** A call either returns or throws. *)
Inductive Outcome (A : Type) :=
| Returned (a : A)
| Thrown (message : string).
Arguments Returned {A} a.
Arguments Thrown {A} message.

(** ** Ranking *)

(** The body of [allResults.forEach]: [uniqueResults] is a [Map] from id to
    result, in insertion order. *)
Fixpoint merge_result (uniqueResults : list Chunk) (result : Chunk) : list Chunk :=
  match uniqueResults with
  | [] => [result]
  | existingResult :: rest =>
      if String.eqb (id existingResult) (id result) then
        {| text := text existingResult;
           id := id existingResult;
           access_level := access_level existingResult;
           departments := departments existingResult;
           score := Qmax (score existingResult) (score result);
           searchType := searchType existingResult ++ "+" ++ searchType result;
           finalScore := finalScore existingResult |} :: rest
      else existingResult :: merge_result rest result
  end.

Definition merge_all (allResults : list Chunk) : list Chunk :=
  fold_left merge_result allResults [].

Definition entity_boost (resultText : string) (factor : Q) (acc : Q) (entity : string) : Q :=
  if Js.includes resultText (Js.toLowerCase entity) then (acc * factor)%Q else acc.

(** The callback of the [map] that computes [finalScore]. *)
Definition boostedScore (P : Patterns) (queryInfo : QueryInfo)
    (isMonetaryQuestion : bool) (questionLower : string) (result : Chunk) : Q :=
  let s0 := score result in
  let resultText := Js.toLowerCase (text result) in
  let s1 :=
    if isMonetaryQuestion then
      let monetaryMatches := monetary_matches P resultText in
      let a := if (0 <? monetaryMatches)%nat
               then (s0 * (2 + inject_Z (Z.of_nat monetaryMatches)))%Q else s0 in
      let b := if charity_mention P resultText then (a * (3 # 2))%Q else a in
      if Js.includes questionLower "total" && decade_mention P resultText
      then (b * (13 # 10))%Q else b
    else s0 in
  let queryPhrase := Js.replace_punct "" (Js.toLowerCase (originalQuery queryInfo)) in
  let s2 := if Js.includes resultText queryPhrase then (s1 * (6 # 5))%Q else s1 in
  let s3 := fold_left (entity_boost resultText (13 # 10)%Q) (dates (entities queryInfo)) s2 in
  let s4 := fold_left (entity_boost resultText (6 # 5)%Q) (people (entities queryInfo)) s3 in
  if Js.includes (searchType result) "+" then (s4 * (7 # 5))%Q else s4.

Definition rankResult (P : Patterns) (queryInfo : QueryInfo)
    (isMonetaryQuestion : bool) (questionLower : string) (result : Chunk) : Chunk :=
  {| text := text result;
     id := id result;
     access_level := access_level result;
     departments := departments result;
     score := score result;
     searchType := searchType result;
     finalScore := Some (boostedScore P queryInfo isMonetaryQuestion questionLower result) |}.

(** [arr.sort((a, b) => key(b) - key(a))]: a stable sort, larger keys first. *)
Fixpoint insert_desc (key : Chunk -> Q) (x : Chunk) (sorted : list Chunk) : list Chunk :=
  match sorted with
  | [] => [x]
  | y :: rest =>
      if Qle_bool (key y) (key x) then x :: y :: rest
      else y :: insert_desc key x rest
  end.

Definition sort_desc (key : Chunk -> Q) (arr : list Chunk) : list Chunk :=
  fold_right (insert_desc key) [] arr.

(** [b.finalScore - a.finalScore]; every ranked result carries a score. *)
Definition rankKey (c : Chunk) : Q :=
  match finalScore c with
  | Some f => f
  | None => 0%Q
  end.

Definition monetaryTerms : list string :=
  ["million"; "charitable"; "support"; "foundation"; "provided"; "donations"; "donated"].

Definition searchKeywordsFor (queryInfo : QueryInfo) (isMonetaryQuestion : bool) : string :=
  let searchKeywords := keywords queryInfo in
  if isMonetaryQuestion then
    let additionalTerms :=
      Js.slice_first 3
        (List.filter (fun term => negb (Js.includes searchKeywords term)) monetaryTerms) in
    if (0 <? length additionalTerms)%nat
    then searchKeywords ++ " OR " ++ Js.join " OR " additionalTerms
    else searchKeywords
  else searchKeywords.

(** Steps 3 and 4 of [performHybridSearch]: the merge by identifier and the
    boosts. *)
Definition rankedResultsOf (P : Patterns) (queryInfo : QueryInfo)
    (isMonetaryQuestion : bool) (questionLower : string)
    (allResults : list Chunk) : list Chunk :=
  let uniqueResults := merge_all allResults in
  List.map (rankResult P queryInfo isMonetaryQuestion questionLower) uniqueResults.

(** Steps 3 to 6 of [performHybridSearch]. *)
Definition rankAndFilter (P : Patterns) (queryInfo : QueryInfo)
    (isMonetaryQuestion : bool) (questionLower : string)
    (vectorResults keywordResults : list Chunk) (user : option User) : list Chunk :=
  let allResults := vectorResults ++ keywordResults in
  let rankedResults :=
    rankedResultsOf P queryInfo isMonetaryQuestion questionLower allResults in
  let permissionFilteredResults := filterChunksByPermissions rankedResults user in
  Js.slice_first 5 (sort_desc rankKey permissionFilteredResults).

Definition performHybridSearch (P : Patterns) (question : string)
    (session : Neo4j) (user : option User) : Outcome (list Chunk) :=
  let queryInfo := preprocessQuery P question in
  let questionLower := Js.toLowerCase question in
  let isMonetaryQuestion := monetary_question P questionLower in
  let vectorLimit := if isMonetaryQuestion then 8%nat else 5%nat in
  match vectorQuery session vectorLimit question with
  | Records vectorRows =>
      let vectorResults := List.map (chunk_of_row "vector") vectorRows in
      let keywordResults :=
        match keywordQuery session vectorLimit
                (searchKeywordsFor queryInfo isMonetaryQuestion) with
        | Records keywordRows => List.map (chunk_of_row "keyword") keywordRows
        | Failed _ => []
        end in
      Returned (rankAndFilter P queryInfo isMonetaryQuestion questionLower
                  vectorResults keywordResults user)
  | Failed _ =>
      match fallbackQuery session question with
      | Records fallbackRows =>
          Returned (filterChunksByPermissions
                      (List.map (chunk_of_row "vector_fallback") fallbackRows) user)
      | Failed message => Thrown message
      end
  end.

(** ** Conversation sessions *)

Record Message := mkMessage {
  sender : string;
  msg_text : string;
  timestamp : string
}.

(** [previousChunks] is a [Map] and [topicKeywords] a [Set]; both are kept
    in insertion order.  [userId] is [None] for JavaScript's [null]. *)
Record SessionData := mkSessionData {
  history : list Message;
  previousChunks : list (string * Chunk);
  topicKeywords : list string;
  userId : option UserId
}.

(** [map.set(key, value)]: an existing key keeps its place. *)
Fixpoint map_set (m : list (string * Chunk)) (key : string) (value : Chunk)
  : list (string * Chunk) :=
  match m with
  | [] => [(key, value)]
  | (k, v) :: rest =>
      if String.eqb k key then (k, value) :: rest
      else (k, v) :: map_set rest key value
  end.

(** [set.add(x)] *)
Definition set_add (s : list string) (x : string) : list string :=
  if Js.arr_includes s x then s else s ++ [x].

(** The ownership test shared by the three session endpoints:
    [req.user && sessionData.userId && sessionData.userId !== req.user.id]. *)
Definition ownedByAnother (user : option User) (sessionData : SessionData) : bool :=
  match user, userId sessionData with
  | Some u, Some owner => negb (Pos.eqb owner (user_id u))
  | _, _ => false
  end.

Definition expandQuery (question questionLower : string) (sessionData : SessionData)
  : string :=
  let recentTopics := Js.slice_last 10 (topicKeywords sessionData) in
  if Js.includes questionLower "total" || Js.includes questionLower "overall"
     || String.eqb questionLower "and in total?" then
    if existsb (fun topic => Js.includes topic "charity" || Js.includes topic "donation")
         recentTopics then
      "charitable donations total decade years combined philanthropic giving community support overall"
    else if existsb (fun topic => Js.includes topic "insurance") recentTopics then
      "insurance total coverage policies " ++
      Js.join " " (List.filter (fun t => Js.includes t "insurance") recentTopics)
    else
      "total overall " ++ Js.join " " (Js.slice_first 3 recentTopics) ++ " combined"
  else
    question ++ " " ++ Js.join " " (Js.slice_first 3 recentTopics).

(** [x.finalScore || x.score || 0] *)
Definition effectiveScore (c : Chunk) : Q :=
  match finalScore c with
  | Some f => if Qeq_bool f 0 then score c else f
  | None => score c
  end.

Definition isRelevantPrevious (questionLower : string) (chunk : Chunk) : bool :=
  let chunkText := Js.toLowerCase (text chunk) in
  let questionWords :=
    List.filter (fun w => (3 <? String.length w)%nat) (Js.split_ws questionLower) in
  existsb (fun word => Js.includes chunkText word) questionWords.

Definition asPreviousContext (chunk : Chunk) : Chunk :=
  {| text := text chunk;
     id := id chunk;
     access_level := access_level chunk;
     departments := departments chunk;
     score := score chunk;
     searchType := "previous_context";
     finalScore := Some (effectiveScore chunk * (4 # 5))%Q |}.

(** The merge of cached passages into the fresh results, the re-sort and the
    truncation to five. *)
Definition topChunksOf (retrievedChunks : list Chunk) (isFollowUp : bool)
    (questionLower : string) (sessionData : SessionData) (user : option User)
  : list Chunk :=
  let combinedChunks :=
    if isFollowUp && (0 <? length (previousChunks sessionData))%nat then
      let previousChunksArray := List.map snd (previousChunks sessionData) in
      let relevantPrevious :=
        Js.slice_first 2 (List.filter (isRelevantPrevious questionLower) previousChunksArray) in
      let filteredPrevious := filterChunksByPermissions relevantPrevious user in
      retrievedChunks ++ List.map asPreviousContext filteredPrevious
    else retrievedChunks in
  Js.slice_first 5 (sort_desc effectiveScore combinedChunks).

Definition topicStopWords : list string :=
  ["what"; "when"; "where"; "why"; "how"; "does"; "did"; "the"].

Definition questionKeywordsOf (question : string) : list string :=
  List.filter
    (fun word => (3 <? String.length word)%nat && negb (Js.arr_includes topicStopWords word))
    (Js.split_ws (Js.replace_punct " " (Js.toLowerCase question))).

(** The session update of [/api/retrieve]: the two new messages, the cache
    of the passages just used, the owner, and the three caps. *)
Definition recordTurn (sessionData : SessionData) (user : option User)
    (userMessage botMessage : Message) (topChunks : list Chunk)
    (questionKeywords : list string) : SessionData :=
  let topicKeywords1 := fold_left set_add questionKeywords (topicKeywords sessionData) in
  let history1 := history sessionData ++ [userMessage; botMessage] in
  let previousChunks1 :=
    fold_left (fun m chunk => map_set m (id chunk) chunk) topChunks
      (previousChunks sessionData) in
  let userId1 :=
    match user with
    | Some u => Some (user_id u)
    | None => userId sessionData
    end in
  {| history := Js.slice_last 20 history1;
     previousChunks :=
       if (50 <? length previousChunks1)%nat
       then Js.slice_last 50 previousChunks1 else previousChunks1;
     topicKeywords :=
       if (20 <? length topicKeywords1)%nat
       then Js.slice_last 20 topicKeywords1 else topicKeywords1;
     userId := userId1 |}.

(** ** The request handlers *)

Record GeneratedResponse := mkGenerated {
  answer : string;
  model : string;
  tokensUsed : nat;
  gen_sessionId : string;
  needsFollowUp : bool
}.

(** What one request sees of the outside: the store, the identifier drawn
    for a request without one, the clock at the two messages, the answer
    generator (which recovers from its own failures and always returns) and
    whether the audit log can be written while the request is handled. *)
Record World := mkWorld {
  neo4j : Neo4j;
  fresh_session_id : string;
  now_user : string;
  now_bot : string;
  generateResponse : string -> list Chunk -> string -> list Message -> GeneratedResponse;
  audit_ok : bool
}.

Record Request := mkRequest {
  body_question : option string;
  body_sessionId : option string;
  req_user : option User
}.

Record ResponseChunk := mkResponseChunk {
  rc_text : string;
  rc_id : string;
  rc_score : Q;
  rc_searchType : string;
  rc_accessLevel : string;
  rc_departments : list string
}.

Definition responseChunk (chunk : Chunk) : ResponseChunk :=
  {| rc_text :=
       String.substring 0 200 (text chunk) ++
       (if (200 <? String.length (text chunk))%nat then "..." else "");
     rc_id := id chunk;
     rc_score := effectiveScore chunk;
     rc_searchType := searchType chunk;
     rc_accessLevel := access_level chunk;
     rc_departments := departments chunk |}.

Record Payload := mkPayload {
  p_question : string;
  p_answer : string;
  p_retrievedChunks : list ResponseChunk;
  p_aiModel : string;
  p_sessionId : string;
  p_conversationLength : nat;
  p_expandedQuery : option string;
  p_contextChunksUsed : nat;
  p_previousChunksInSession : nat;
  p_topicKeywords : list string;
  p_permissionsApplied : bool
}.

(** [NoResponse]: the handler throws out of its [catch] block, where it
    awaits the audit log once more, and sends nothing. *)
Inductive Response :=
| Status200 (payload : Payload)
| Status400
| Status403
| Status500
| NoResponse.

Definition freshSession (user : option User) : SessionData :=
  {| history := [];
     previousChunks := [];
     topicKeywords := [];
     userId := match user with Some u => Some (user_id u) | None => None end |}.

(** [conversationSessions.get(currentSessionId) || { history: [], ... }] *)
Definition sessionDataOf (user : option User) (sessionId : string)
    (conversationSessions : gmap string SessionData) : SessionData :=
  match conversationSessions !! sessionId with
  | Some sd => sd
  | None => freshSession user
  end.

(** What the handler computes between the ownership test and the search. *)
Definition questionLowerOf (question : string) : string :=
  Js.trim (Js.toLowerCase question).

Definition isFollowUpOf (question : string) (sessionData : SessionData) : bool :=
  (String.length (questionLowerOf question) <? 20)%nat
  && (0 <? length (history sessionData))%nat.

Definition searchQueryOf (question : string) (sessionData : SessionData) : string :=
  if isFollowUpOf question sessionData
  then expandQuery question (questionLowerOf question) sessionData
  else question.

Definition currentSessionIdOf (W : World) (req : Request) : string :=
  match body_sessionId req with
  | Some s => if String.eqb s "" then fresh_session_id W else s
  | None => fresh_session_id W
  end.

(** [app.post('/api/retrieve', optionalAuth, ...)] on the session store. *)
Definition retrieve (P : Patterns) (W : World) (req : Request)
    (conversationSessions : gmap string SessionData)
  : Response * gmap string SessionData :=
  match body_question req with
  | None => (Status400, conversationSessions)
  | Some question =>
    if String.eqb question "" then (Status400, conversationSessions) else
    let currentSessionId := currentSessionIdOf W req in
    let sessionData :=
      sessionDataOf (req_user req) currentSessionId conversationSessions in
    if ownedByAnother (req_user req) sessionData then (Status403, conversationSessions) else
    let questionLower := questionLowerOf question in
    let isFollowUp := isFollowUpOf question sessionData in
    let searchQuery := searchQueryOf question sessionData in
    match performHybridSearch P searchQuery (neo4j W) (req_user req) with
    | Thrown _ =>
      let auditFailed :=
        match req_user req with
        | Some _ => negb (audit_ok W)
        | None => false
        end in
      if auditFailed then (NoResponse, conversationSessions)
      else (Status500, conversationSessions)
    | Returned retrievedChunks =>
      let topChunks :=
        topChunksOf retrievedChunks isFollowUp questionLower sessionData (req_user req) in
      let generatedResponse :=
        generateResponse W question topChunks currentSessionId (history sessionData) in
      let sessionData1 :=
        recordTurn sessionData (req_user req)
          {| sender := "user"; msg_text := question; timestamp := now_user W |}
          {| sender := "bot"; msg_text := answer generatedResponse; timestamp := now_bot W |}
          topChunks (questionKeywordsOf question) in
      let sessions1 := <[currentSessionId := sessionData1]> conversationSessions in
      let auditFailed :=
        match req_user req with
        | Some _ => negb (audit_ok W)
        | None => false
        end in
      if auditFailed then (NoResponse, sessions1) else
      (Status200
         {| p_question := question;
            p_answer := answer generatedResponse;
            p_retrievedChunks := List.map responseChunk topChunks;
            p_aiModel := model generatedResponse;
            p_sessionId := gen_sessionId generatedResponse;
            p_conversationLength := length (history sessionData1);
            p_expandedQuery :=
              if String.eqb searchQuery question then None else Some searchQuery;
            p_contextChunksUsed := length topChunks;
            p_previousChunksInSession := length (previousChunks sessionData1);
            p_topicKeywords := Js.slice_last 5 (topicKeywords sessionData1);
            p_permissionsApplied :=
              match req_user req with Some _ => true | None => false end |},
       sessions1)
    end
  end.

Record ConversationView := mkConversationView {
  cv_sessionId : string;
  cv_history : list Message;
  cv_messageCount : nat;
  cv_cachedChunks : nat;
  cv_topicKeywords : list string;
  cv_owner : option UserId
}.

Inductive ConversationResponse :=
| Conversation200 (view : ConversationView)
| Conversation403.

(** [app.get('/api/conversation/:sessionId', optionalAuth, ...)] *)
Definition getConversation (user : option User) (sessionId : string)
    (conversationSessions : gmap string SessionData) : ConversationResponse :=
  let sessionData := sessionDataOf None sessionId conversationSessions in
  if ownedByAnother user sessionData then Conversation403 else
  Conversation200
    {| cv_sessionId := sessionId;
       cv_history := history sessionData;
       cv_messageCount := length (history sessionData);
       cv_cachedChunks := length (previousChunks sessionData);
       cv_topicKeywords := topicKeywords sessionData;
       cv_owner := userId sessionData |}.


(** * The rest of the server *)

From Stdlib Require Import Sorted.

(** ** Ingestion: the access level of new content *)

Record Classification := mkClassification {
  cl_accessLevel : string;
  cl_departments : list string
}.

(** [determineAccessLevel] of [/api/ingest].  The department of the user
    is received and not read. *)
Definition determineAccessLevel (text_ : string) (userRole : string)
    (userDept : option string) : Classification :=
  let lowerText := Js.toLowerCase text_ in
  let adminLevel :=
    if String.eqb userRole "admin" then
      if Js.includes lowerText "confidential" || Js.includes lowerText "executive" then
        Some {| cl_accessLevel := "confidential"; cl_departments := ["executive"] |}
      else if Js.includes lowerText "financial" || Js.includes lowerText "revenue"
              || Js.includes lowerText "profit" then
        Some {| cl_accessLevel := "internal";
                cl_departments := ["management"; "finance"] |}
      else None
    else None in
  match adminLevel with
  | Some classification => classification
  | None =>
      if Js.includes lowerText "underwriting" || Js.includes lowerText "risk" then
        {| cl_accessLevel := "departmental"; cl_departments := ["underwriting"] |}
      else if Js.includes lowerText "claims" || Js.includes lowerText "investigation" then
        {| cl_accessLevel := "departmental"; cl_departments := ["claims"] |}
      else
        {| cl_accessLevel := "public"; cl_departments := ["all"] |}
  end.

(** The chunk that the ingestion stores for a piece of text, as a later
    search reads it back. *)
Definition ingestedChunk (chunkId chunkText : string) (uploader : User)
    (score_ : Q) (tag : string) : Chunk :=
  let classification :=
    determineAccessLevel chunkText (role uploader) (department uploader) in
  {| text := chunkText;
     id := chunkId;
     access_level := cl_accessLevel classification;
     departments := cl_departments classification;
     score := score_;
     searchType := tag;
     finalScore := None |}.

(** ** Clearing a session *)

Inductive ClearResponse :=
| Cleared200
| Clear403.

(** [app.post('/api/clear-session', optionalAuth, ...)] on the session
    store; the audit record is not awaited. *)
Definition clearSession (user : option User) (sessionId : option string)
    (conversationSessions : gmap string SessionData)
  : ClearResponse * gmap string SessionData :=
  match sessionId with
  | None => (Cleared200, conversationSessions)
  | Some sid =>
      if String.eqb sid "" then (Cleared200, conversationSessions) else
      match conversationSessions !! sid with
      | None => (Cleared200, conversationSessions)
      | Some sessionData =>
          if ownedByAnother user sessionData then (Clear403, conversationSessions)
          else (Cleared200, delete sid conversationSessions)
      end
  end.

(** ** The permission test endpoint *)

Record ChunkPreview := mkChunkPreview {
  pv_id : string;
  pv_accessLevel : string;
  pv_departments : list string;
  pv_preview : string
}.

Definition chunkPreview (chunk : Chunk) : ChunkPreview :=
  {| pv_id := id chunk;
     pv_accessLevel := access_level chunk;
     pv_departments := departments chunk;
     pv_preview := String.substring 0 100 (text chunk) ++ "..." |}.

Record PermissionReport := mkPermissionReport {
  pr_totalChunks : nat;
  pr_accessibleChunks : nat;
  pr_filteredOut : Z;
  pr_sampleAccessibleChunks : list ChunkPreview;
  pr_sampleBlockedChunks : list ChunkPreview
}.

Inductive TestPermissionsResponse :=
| TestPermissions200 (report : PermissionReport)
| TestPermissions400
| TestPermissions500 (message : string).

(** A record of the test query, which fixes the score at [0.5] and the
    tag at [test]. *)
Definition testChunk (r : Row) : Chunk :=
  {| text := row_text r;
     id := row_id r;
     access_level := row_access_level r;
     departments := row_departments r;
     score := (1 # 2)%Q;
     searchType := "test";
     finalScore := None |}.

(** [filteredChunks.find(filtered => filtered.id === chunk.id)], read as a
    truth value. *)
Definition foundById (filteredChunks : list Chunk) (chunk : Chunk) : bool :=
  existsb (fun filtered => String.eqb (id filtered) (id chunk)) filteredChunks.

(** The body of the response of the permission test. *)
Definition permissionReportOf (user : User) (allChunks : list Chunk) : PermissionReport :=
  let filteredChunks := filterChunksByPermissions allChunks (Some user) in
  {| pr_totalChunks := length allChunks;
     pr_accessibleChunks := length filteredChunks;
     pr_filteredOut :=
       (Z.of_nat (length allChunks) - Z.of_nat (length filteredChunks))%Z;
     pr_sampleAccessibleChunks :=
       List.map chunkPreview (Js.slice_first 3 filteredChunks);
     pr_sampleBlockedChunks :=
       List.map chunkPreview
         (Js.slice_first 3
            (List.filter (fun chunk => negb (foundById filteredChunks chunk))
               allChunks)) |}.

(** [app.post('/api/test-permissions', authenticateToken, ...)]: [user] is
    the authenticated caller and [allChunksRun] what the query for ten
    chunks does. *)
Definition testPermissions (user : User) (testQuestion : option string)
    (allChunksRun : Run) : TestPermissionsResponse :=
  match testQuestion with
  | None => TestPermissions400
  | Some q =>
    if String.eqb q "" then TestPermissions400 else
    match allChunksRun with
    | Failed message => TestPermissions500 message
    | Records rows =>
        TestPermissions200 (permissionReportOf user (List.map testChunk rows))
    end
  end.

(** ** The local answer generator *)

Module JsText.

(** the class [[.!?]] *)
Definition is_sentence_end (c : ascii) : bool :=
  let n := nat_of_ascii c in
  (n =? 46)%nat || (n =? 33)%nat || (n =? 63)%nat.

(** [s.split(/[.!?]+/)]: the pieces between maximal runs of sentence
    marks; a leading or trailing run leaves an empty piece at that end. *)
Fixpoint split_sentences_from (cur : string) (skipping : bool) (s : string)
  : list string :=
  match s with
  | EmptyString => [cur]
  | String c s' =>
      if is_sentence_end c then
        if skipping then split_sentences_from cur true s'
        else cur :: split_sentences_from EmptyString true s'
      else split_sentences_from (cur ++ String c EmptyString) false s'
  end.

Definition split_sentences (s : string) : list string :=
  split_sentences_from EmptyString false s.

(** [s.replace(/\s+/g, ' ')] *)
Fixpoint collapse_ws_from (skipping : bool) (s : string) : string :=
  match s with
  | EmptyString => EmptyString
  | String c s' =>
      if Js.is_space c then
        if skipping then collapse_ws_from true s'
        else String " "%char (collapse_ws_from true s')
      else String c (collapse_ws_from false s')
  end.

Definition collapse_ws (s : string) : string := collapse_ws_from false s.

End JsText.

(** [chunk.text.split(/[.!?]+/).filter(s => s.trim().length > 10)] *)
Definition sentencesOf (text_ : string) : list string :=
  List.filter (fun s => (10 <? String.length (Js.trim s))%nat)
    (JsText.split_sentences text_).

(** The chain of tests that sets [isRelevant] for one sentence. *)
Definition isRelevantSentence (questionLower sentenceLower : string) : bool :=
  if Js.includes questionLower "golf" && Js.includes questionLower "tournament" then
    Js.includes sentenceLower "golf" || Js.includes sentenceLower "tournament"
    || Js.includes sentenceLower "championship"
  else if Js.includes questionLower "when did" && Js.includes questionLower "repurchase" then
    Js.includes sentenceLower "repurchase"
    && (Js.includes sentenceLower "april" || Js.includes sentenceLower "2007"
        || Js.includes sentenceLower "2008")
  else if Js.includes questionLower "who is" then
    Js.includes sentenceLower "paul freeman"
    || (Js.includes sentenceLower "paul" && Js.includes sentenceLower "commercial")
  else if Js.includes questionLower "casualty insurance"
          && Js.includes questionLower "cover" then
    Js.includes sentenceLower "casualty"
    && (Js.includes sentenceLower "liability" || Js.includes sentenceLower "protection")
  else if Js.includes questionLower "what happened" && Js.includes questionLower "2007" then
    Js.includes sentenceLower "2007"
  else
    let questionWords :=
      List.filter (fun w => (2 <? String.length w)%nat)
        (Js.split_ws (Js.replace_punct "" questionLower)) in
    let matchCount :=
      length (List.filter (fun word => Js.includes sentenceLower word) questionWords) in
    (Nat.min 2 (length questionWords) <=? matchCount)%nat.

(** The inner loop of [mockLLMGenerate] over the sentences of one chunk; it
    stops at the third sentence kept. *)
Fixpoint scanSentences (questionLower : string) (relevantSentences : list string)
    (sentences : list string) : list string :=
  match sentences with
  | [] => relevantSentences
  | sentence :: rest =>
      let sentenceLower := Js.toLowerCase sentence in
      if isRelevantSentence questionLower sentenceLower
         && negb (existsb (fun existing => String.eqb (Js.toLowerCase existing) sentenceLower)
                    relevantSentences)
      then
        let relevantSentences1 := relevantSentences ++ [Js.trim sentence] in
        if (3 <=? length relevantSentences1)%nat then relevantSentences1
        else scanSentences questionLower relevantSentences1 rest
      else scanSentences questionLower relevantSentences rest
  end.

(** The outer loop over the chunks, which stops as the inner one does. *)
Fixpoint scanChunks (questionLower : string) (relevantSentences : list string)
    (sortedContext : list Chunk) : list string :=
  match sortedContext with
  | [] => relevantSentences
  | chunk :: rest =>
      let relevantSentences1 :=
        scanSentences questionLower relevantSentences (sentencesOf (text chunk)) in
      if (3 <=? length relevantSentences1)%nat then relevantSentences1
      else scanChunks questionLower relevantSentences1 rest
  end.

(** The array [relevantSentences] when [mockLLMGenerate] joins it. *)
Definition relevantSentencesOf (question : string) (context : list Chunk) : list string :=
  let sortedContext := sort_desc effectiveScore context in
  let relevantSentences := scanChunks (Js.toLowerCase question) [] sortedContext in
  if (length relevantSentences =? 0)%nat then
    match sortedContext with
    | bestChunk :: _ => Js.slice_first 2 (sentencesOf (text bestChunk))
    | [] => []
    end
  else relevantSentences.

Definition mockLLMGenerate (question : string) (context : list Chunk) : string :=
  if (length context =? 0)%nat then
    "I don't have access to information that can answer that question. This might be because the information is restricted based on your access level, or it's not available in the knowledge base."
  else
    Js.trim (JsText.collapse_ws (Js.join ". " (relevantSentencesOf question context))).

(** ** Response generation *)

(** What [generateResponse] returns: the fields the handler reads, and the
    processing steps. *)
Record GeneratedReply := mkGeneratedReply {
  reply : GeneratedResponse;
  processingSteps : list string
}.

(** The answer service: its health check, which throws or tells whether the
    response was [ok], and the call that [callPythonAIService] makes, which
    returns the body of the response or throws. *)
Record AiService := mkAiService {
  ai_health : Outcome bool;
  ai_generate : string -> list Chunk -> option string -> list Message
                -> Outcome GeneratedReply
}.

(** [sessionId || `session_${Date.now()}`], where [now] is the clock read
    as a string. *)
Definition sessionIdOr (sessionId : option string) (now : string) : string :=
  match sessionId with
  | Some s => if String.eqb s "" then "session_" ++ now else s
  | None => "session_" ++ now
  end.

Definition localFallback (now : string) (question : string) (context : list Chunk)
    (sessionId : option string) (errorMessage : string) : GeneratedReply :=
  {| reply :=
       {| answer := mockLLMGenerate question context;
          model := "mock-fallback";
          tokensUsed := 0;
          gen_sessionId := sessionIdOr sessionId now;
          needsFollowUp := false |};
     processingSteps :=
       [("AI service failed: " ++ errorMessage)%string; "Using local fallback"] |}.

Definition generateResponseWith (ai : AiService) (now : string) (question : string)
    (context : list Chunk) (sessionId : option string)
    (conversationHistory : list Message) : GeneratedReply :=
  if (length context =? 0)%nat then
    {| reply :=
         {| answer :=
              "I don't have access to information that can answer your question. This might be because the information is restricted based on your access level, or it's not available in the knowledge base.";
            model := "fallback";
            tokensUsed := 0;
            gen_sessionId := sessionIdOr sessionId now;
            needsFollowUp := false |};
       processingSteps := ["No accessible context available"] |}
  else
    match ai_health ai with
    | Thrown message => localFallback now question context sessionId message
    | Returned false =>
        localFallback now question context sessionId "AI service is not available"
    | Returned true =>
        match ai_generate ai question context sessionId conversationHistory with
        | Returned response => response
        | Thrown message => localFallback now question context sessionId message
        end
    end.
(** ** Notions used to state the properties *)

(** The decision the filter takes on one chunk, for either kind of caller. *)
Definition allowedBy (user : option User) (chunk : Chunk) : bool :=
  match user with
  | None => String.eqb (access_level chunk) "public"
  | Some u => chunkAllowed u chunk
  end.

(** A chunk passes the filter when the filter keeps it. *)
Definition passesFilter (user : option User) (chunk : Chunk) : Prop :=
  filterChunksByPermissions [chunk] user = [chunk].


(** The bound that the specification states for a ranking run: each ranked
    passage carries a final score that is at least the raw score of every
    candidate with its identifier, hence at least their maximum. *)
Definition finalScoreDominatesFor (allResults : list Chunk) (r : Chunk) : Prop :=
  forall x,
    In x allResults -> id x = id r ->
    exists f, finalScore r = Some f /\ (score x <= f)%Q.

Definition finalScoreDominates (allResults rankedResults : list Chunk) : Prop :=
  forall r, In r rankedResults -> finalScoreDominatesFor allResults r.

(** A ranked passage whose best raw score is not negative. *)
Definition hasNonnegativeScore (allResults : list Chunk) (r : Chunk) : Prop :=
  exists y, In y allResults /\ id y = id r /\ (0 <= score y)%Q.

(** The invariant of the merge loop: the map holds one entry per identifier
    seen so far, and the entry's score bounds the scores seen for it. *)
Definition mergeInvariant (uniqueResults seen : list Chunk) : Prop :=
  List.NoDup (List.map id uniqueResults)
  /\ (forall x, In x seen -> In (id x) (List.map id uniqueResults))
  /\ (forall r x, In r uniqueResults -> In x seen -> id x = id r ->
                  (score x <= score r)%Q).

(** The expansion of a follow-up question as the specification words it:
    the question followed by the three most recent topic keywords. *)
Definition questionWithRecentTopics (question : string) (sessionData : SessionData)
  : string :=
  question ++ " " ++ Js.join " " (Js.slice_last 3 (topicKeywords sessionData)).

(** The inputs of one session update, and a run of updates on a session. *)
Record Turn := mkTurn {
  turn_user : option User;
  turn_userMessage : Message;
  turn_botMessage : Message;
  turn_topChunks : list Chunk;
  turn_keywords : list string
}.

Definition recordTurns (sessionData : SessionData) (turns : list Turn) : SessionData :=
  fold_left
    (fun sd t =>
       recordTurn sd (turn_user t) (turn_userMessage t) (turn_botMessage t)
         (turn_topChunks t) (turn_keywords t))
    turns sessionData.

Definition messagesOf (turns : list Turn) : list Message :=
  flat_map (fun t => [turn_userMessage t; turn_botMessage t]) turns.

(** The classification and the limit that [performHybridSearch] derives
    from the question. *)
Definition isMonetaryOf (P : Patterns) (question : string) : bool :=
  monetary_question P (Js.toLowerCase question).

Definition limitOf (P : Patterns) (question : string) : nat :=
  if isMonetaryOf P question then 8%nat else 5%nat.

(** The condition of the ownership conflict: the caller is authenticated,
    the session exists with a recorded owner, and the owner is someone
    else. *)
Definition ownedByOther (caller : option User) (sessionId : string)
    (sessions : gmap string SessionData) : Prop :=
  exists u sessionData owner,
    caller = Some u
    /\ sessions !! sessionId = Some sessionData
    /\ userId sessionData = Some owner
    /\ owner <> user_id u.

(** ** Further notions used to state the properties *)

(** The same user with another department. *)
Definition withDepartment (u : User) (d : option string) : User :=
  {| user_id := user_id u;
     username := username u;
     role := role u;
     accessLevel := accessLevel u;
     department := d |}.

(** Larger scores first. *)
Definition descendingBy {A} (key : A -> Q) (l : list A) : Prop :=
  StronglySorted (fun a b => (key b <= key a)%Q) l.

(** The session a request addresses, and what the handler of
    [/api/retrieve] derives from it once the search has returned. *)
Definition addressedSession (W : World) (req : Request)
    (sessions : gmap string SessionData) : SessionData :=
  sessionDataOf (req_user req) (currentSessionIdOf W req) sessions.

Definition servedChunks (W : World) (req : Request)
    (sessions : gmap string SessionData) (question : string)
    (retrievedChunks : list Chunk) : list Chunk :=
  let sessionData := addressedSession W req sessions in
  topChunksOf retrievedChunks (isFollowUpOf question sessionData)
    (questionLowerOf question) sessionData (req_user req).

Definition servedSession (W : World) (req : Request)
    (sessions : gmap string SessionData) (question : string)
    (retrievedChunks : list Chunk) : SessionData :=
  let sessionData := addressedSession W req sessions in
  let topChunks := servedChunks W req sessions question retrievedChunks in
  recordTurn sessionData (req_user req)
    {| sender := "user"; msg_text := question; timestamp := now_user W |}
    {| sender := "bot";
       msg_text :=
         answer (generateResponse W question topChunks (currentSessionIdOf W req)
                   (history sessionData));
       timestamp := now_bot W |}
    topChunks (questionKeywordsOf question).

(** The cache of a session is keyed by the identifier of the passage it
    stores, and holds one entry for each key. *)
Definition cacheWellFormed (cache : list (string * Chunk)) : Prop :=
  List.NoDup (List.map fst cache)
  /\ forall key chunk, In (key, chunk) cache -> key = id chunk.

(** The body of the 200 response of [/api/retrieve]. *)
Definition servedPayload (W : World) (req : Request)
    (sessions : gmap string SessionData) (question : string)
    (retrievedChunks : list Chunk) : Payload :=
  let sessionData := addressedSession W req sessions in
  let searchQuery := searchQueryOf question sessionData in
  let topChunks := servedChunks W req sessions question retrievedChunks in
  let generatedResponse :=
    generateResponse W question topChunks (currentSessionIdOf W req)
      (history sessionData) in
  let sessionData1 := servedSession W req sessions question retrievedChunks in
  {| p_question := question;
     p_answer := answer generatedResponse;
     p_retrievedChunks := List.map responseChunk topChunks;
     p_aiModel := model generatedResponse;
     p_sessionId := gen_sessionId generatedResponse;
     p_conversationLength := length (history sessionData1);
     p_expandedQuery :=
       if String.eqb searchQuery question then None else Some searchQuery;
     p_contextChunksUsed := length topChunks;
     p_previousChunksInSession := length (previousChunks sessionData1);
     p_topicKeywords := Js.slice_last 5 (topicKeywords sessionData1);
     p_permissionsApplied :=
       match req_user req with Some _ => true | None => false end |}.

(** The audit record is written for authenticated callers only. *)
Definition auditFails (W : World) (req : Request) : bool :=
  match req_user req with
  | Some _ => negb (audit_ok W)
  | None => false
  end.

(** What the conversation endpoint shows of a session that does not
    exist. *)
Definition emptyConversation (sessionId : string) : ConversationView :=
  {| cv_sessionId := sessionId;
     cv_history := [];
     cv_messageCount := 0;
     cv_cachedChunks := 0;
     cv_topicKeywords := [];
     cv_owner := None |}.


(** A sentence quoted from a passage: one of the pieces of its text between
    sentence marks, as it stands or trimmed. *)
Definition quotedFrom (sentence : string) (chunk : Chunk) : Prop :=
  exists piece,
    In piece (JsText.split_sentences (text chunk))
    /\ (sentence = Js.trim piece \/ sentence = piece).
(** ** Concrete users, passages and stores used in the examples *)

Module Sample.

Definition publicChunk : Chunk :=
  {| text := "Travelers umbrella logo history"; id := "doc_1_chunk_0";
     access_level := "public"; departments := ["all"];
     score := (9 # 10)%Q; searchType := "vector"; finalScore := None |}.

Definition confidentialChunk : Chunk :=
  {| text := "Executive compensation plan"; id := "doc_2_chunk_0";
     access_level := "confidential"; departments := ["executive"];
     score := (8 # 10)%Q; searchType := "vector"; finalScore := None |}.

Definition executive : User :=
  {| user_id := 2%positive; username := "jsmith"; role := "manager";
     accessLevel := 3%Z; department := Some "Underwriting" |}.

Definition agent : User :=
  {| user_id := 3%positive; username := "sjones"; role := "agent";
     accessLevel := 1%Z; department := Some "Sales" |}.

(** The regular expressions on the texts of the examples below: none of
    them matches any of these texts. *)
Definition patterns : Patterns :=
  {| match_dates := fun _ => [];
     match_people := fun _ => [];
     match_companies := fun _ => [];
     match_events := fun _ => [];
     match_years := fun _ => [];
     monetary_question := fun _ => false;
     monetary_matches := fun _ => 0%nat;
     charity_mention := fun _ => false;
     decade_mention := fun _ => false |}.

Definition historyRow : Row :=
  {| row_text := "The company history began in 1853.";
     row_id := "doc_1_chunk_0";
     row_access_level := "public";
     row_departments := ["all"];
     row_score := (9 # 10)%Q |}.

(** A store whose two indexes both find [historyRow]. *)
Definition store : Neo4j :=
  {| vectorQuery := fun _ _ => Records [historyRow];
     keywordQuery := fun _ _ => Records [historyRow];
     fallbackQuery := fun _ => Records [] |}.

(** The same store with the full-text index unavailable. *)
Definition storeWithoutFulltext : Neo4j :=
  {| vectorQuery := fun _ _ => Records [historyRow];
     keywordQuery := fun _ _ => Failed "There is no such fulltext schema index";
     fallbackQuery := fun _ => Records [] |}.

Definition world : World :=
  {| neo4j := store;
     fresh_session_id := "session_1700000000000_k3j9x2m1q";
     now_user := "2025-01-01T10:00:00.000Z";
     now_bot := "2025-01-01T10:00:01.000Z";
     generateResponse := fun _ _ sessionId _ =>
       {| answer := "The company history began in 1853";
          model := "mock-fallback";
          tokensUsed := 0;
          gen_sessionId := sessionId;
          needsFollowUp := false |};
     audit_ok := true |}.

(** The passage above as a first request left it in the session cache. *)
Definition cachedHistoryChunk : Chunk :=
  {| text := "The company history began in 1853.";
     id := "doc_1_chunk_0";
     access_level := "public";
     departments := ["all"];
     score := (9 # 10)%Q;
     searchType := "vector+keyword";
     finalScore := Some (63 # 50)%Q |}.

(** A first question, sent without a token. *)
Definition firstQuestion : Request :=
  {| body_question := Some "Describe the company history";
     body_sessionId := Some "s1";
     req_user := None |}.

(** The session that this first question leaves behind. *)
Definition anonymousSession : SessionData :=
  {| history :=
       [ {| sender := "user"; msg_text := "Describe the company history";
            timestamp := "2025-01-01T10:00:00.000Z" |};
         {| sender := "bot"; msg_text := "The company history began in 1853";
            timestamp := "2025-01-01T10:00:01.000Z" |} ];
     previousChunks := [("doc_1_chunk_0", cachedHistoryChunk)];
     topicKeywords := ["describe"; "company"; "history"];
     userId := None |}.

Definition sessions : gmap string SessionData :=
  {[ "s1" := anonymousSession ]}.

(** A short follow-up question on that session, without a token. *)
Definition followUp : Request :=
  {| body_question := Some "and the history";
     body_sessionId := Some "s1";
     req_user := None |}.

(** The same follow-up question sent by an authenticated agent. *)
Definition followUpByAgent : Request :=
  {| body_question := Some "and the history";
     body_sessionId := Some "s1";
     req_user := Some agent |}.

(** A session that has gathered four topic keywords. *)
Definition fourTopicSession : SessionData :=
  {| history := history anonymousSession;
     previousChunks := [];
     topicKeywords := ["describe"; "company"; "history"; "founders"];
     userId := None |}.

(** One exchange, as the handler records it. *)
Definition exchange : Turn :=
  {| turn_user := None;
     turn_userMessage :=
       {| sender := "user"; msg_text := "and the history";
          timestamp := "2025-01-01T10:00:00.000Z" |};
     turn_botMessage :=
       {| sender := "bot"; msg_text := "The company history began in 1853";
          timestamp := "2025-01-01T10:00:01.000Z" |};
     turn_topChunks := [cachedHistoryChunk];
     turn_keywords := ["history"] |}.

(** The session above once the executive has become its owner. *)
Definition ownedSession : SessionData :=
  {| history := history anonymousSession;
     previousChunks := previousChunks anonymousSession;
     topicKeywords := topicKeywords anonymousSession;
     userId := Some (user_id executive) |}.

Definition ownedSessions : gmap string SessionData :=
  {[ "s1" := ownedSession ]}.

(** The agent addresses the session of the executive without a
    question. *)
Definition questionlessByAgent : Request :=
  {| body_question := None;
     body_sessionId := Some "s1";
     req_user := Some agent |}.

(** A store none of whose queries answers, and the world around it. *)
Definition brokenStore : Neo4j :=
  {| vectorQuery := fun _ _ => Failed "Connection refused";
     keywordQuery := fun _ _ => Failed "Connection refused";
     fallbackQuery := fun _ => Failed "Connection refused" |}.

Definition brokenWorld : World :=
  {| neo4j := brokenStore;
     fresh_session_id := fresh_session_id world;
     now_user := now_user world;
     now_bot := now_bot world;
     generateResponse := generateResponse world;
     audit_ok := true |}.

End Sample.

(** ** Further users and passages used in the examples *)

Module Scenario.

Definition administrator : User :=
  {| user_id := 1%positive; username := "admin"; role := "admin";
     accessLevel := 3%Z; department := Some "IT" |}.

Definition underwriter : User :=
  {| user_id := 4%positive; username := "mike.wilson"; role := "underwriter";
     accessLevel := 2%Z; department := Some "Underwriting" |}.

Definition underwritingChunk : Chunk :=
  {| text := "Underwriting guidelines for coastal property";
     id := "doc_3_chunk_0";
     access_level := "departmental"; departments := ["underwriting"];
     score := (7 # 10)%Q; searchType := "vector"; finalScore := None |}.

Definition claimsChunk : Chunk :=
  {| text := "Claims investigation procedure";
     id := "doc_4_chunk_0";
     access_level := "departmental"; departments := ["claims"];
     score := (6 # 10)%Q; searchType := "vector"; finalScore := None |}.

Definition secretChunk : Chunk :=
  {| text := "Draft merger memo";
     id := "doc_5_chunk_0";
     access_level := "secret"; departments := ["executive"];
     score := (5 # 10)%Q; searchType := "vector"; finalScore := None |}.

Definition library : list Chunk :=
  [Sample.publicChunk; underwritingChunk; claimsChunk;
   Sample.confidentialChunk; secretChunk].

(** The world of the examples with an audit log that cannot be written. *)
Definition worldWithoutAudit : World :=
  {| neo4j := neo4j Sample.world;
     fresh_session_id := fresh_session_id Sample.world;
     now_user := now_user Sample.world;
     now_bot := now_bot Sample.world;
     generateResponse := generateResponse Sample.world;
     audit_ok := false |}.

(** A store with a second session, owned by the executive. *)
Definition twoSessions : gmap string SessionData :=
  <["s2" := Sample.ownedSession]> Sample.sessions.

(** A session in which charity and donations have been discussed. *)
Definition charitySession : SessionData :=
  {| history := history Sample.anonymousSession;
     previousChunks := [];
     topicKeywords := ["foundation"; "charity"; "donation"];
     userId := None |}.

Definition libraryRows : list Row :=
  List.map
    (fun c => {| row_text := text c; row_id := id c;
                 row_access_level := access_level c;
                 row_departments := departments c;
                 row_score := score c |})
    library.

(** An answer service that cannot be reached. *)
Definition unreachableAi : AiService :=
  {| ai_health := Thrown "fetch failed";
     ai_generate := fun _ _ _ _ => Thrown "fetch failed" |}.


(** A store whose vector index fails while the fallback query answers. *)
Definition storeOnFallback : Neo4j :=
  {| vectorQuery := fun _ _ => Failed "vector index is not online";
     keywordQuery := fun _ _ => Records [];
     fallbackQuery := fun _ => Records [Sample.historyRow] |}.

(** A request without a question. *)
Definition emptyRequest : Request :=
  {| body_question := None; body_sessionId := Some "s1"; req_user := None |}.

End Scenario.
(** ** The permission filter: properties *)

Lemma filter_as_allowedBy chunks user :
  filterChunksByPermissions chunks user = List.filter (allowedBy user) chunks.
Proof. destruct user; reflexivity. Qed.

Lemma passesFilter_allowedBy user chunk :
  passesFilter user chunk <-> allowedBy user chunk = true.
Proof.
  unfold passesFilter. rewrite filter_as_allowedBy. simpl.
  destruct (allowedBy user chunk); split; intro H; try reflexivity; discriminate.
Qed.

Lemma in_filtered chunks user c :
  In c (filterChunksByPermissions chunks user) <-> In c chunks /\ allowedBy user c = true.
Proof. rewrite filter_as_allowedBy. apply filter_In. Qed.

Lemma allowedBy_ext user c c' :
  access_level c' = access_level c -> departments c' = departments c ->
  allowedBy user c' = allowedBy user c.
Proof.
  intros Hl Hd. destruct user as [u|]; simpl.
  - unfold chunkAllowed. rewrite Hl, Hd. reflexivity.
  - rewrite Hl. reflexivity.
Qed.

Lemma chunkAllowed_confidential u c :
  access_level c = "confidential" -> chunkAllowed u c = true ->
  role u = "admin" \/ (3 <= accessLevel u)%Z.
Proof.
  intros Hl. unfold chunkAllowed. rewrite Hl.
  destruct (String.eqb (role u) "admin") eqn:Hadmin.
  - intros _. left. apply String.eqb_eq. exact Hadmin.
  - simpl. intros H. right. apply Z.leb_le. exact H.
Qed.

(** C1. Whatever the candidates and the caller, a passage of level
    [confidential] that the permission filter lets through was requested by
    a user who is an admin or whose access level is at least 3; the caller
    is then never anonymous. *)
Theorem confidential_requires_clearance
    (chunks : list Chunk) (user : option User) (c : Chunk) :
  In c (filterChunksByPermissions chunks user) ->
  access_level c = "confidential" ->
  (exists u, user = Some u /\ (role u = "admin" \/ (3 <= accessLevel u)%Z))
  /\ user <> None.
Proof.
  intros Hin Hlevel. apply in_filtered in Hin. destruct Hin as [_ Hallowed].
  destruct user as [u|]; simpl in Hallowed.
  - split; [|discriminate]. exists u. split; [reflexivity|].
    eapply chunkAllowed_confidential; eassumption.
  - rewrite Hlevel in Hallowed. discriminate.
Qed.

Lemma confidential_requires_clearance_witness :
  (exists u, Some Sample.executive = Some u
             /\ (role u = "admin" \/ (3 <= accessLevel u)%Z))
  /\ Some Sample.executive <> None.
Proof.
  apply (confidential_requires_clearance
           [Sample.publicChunk; Sample.confidentialChunk]
           (Some Sample.executive) Sample.confidentialChunk).
  - vm_compute. right. left. reflexivity.
  - reflexivity.
Defined.

(** C2. For an anonymous caller the permission filter keeps exactly the
    candidates whose access level is [public]: every passage of the output
    is public, and every candidate that is not public is left out. *)
Theorem anonymous_sees_only_public (chunks : list Chunk) (c : Chunk) :
  In c (filterChunksByPermissions chunks None)
  <-> In c chunks /\ access_level c = "public".
Proof.
  rewrite in_filtered. simpl. rewrite String.eqb_eq. reflexivity.
Qed.

Lemma anonymous_sees_only_public_witness :
  In Sample.publicChunk
    (filterChunksByPermissions [Sample.publicChunk; Sample.confidentialChunk] None)
  /\ ~ In Sample.confidentialChunk
         (filterChunksByPermissions [Sample.publicChunk; Sample.confidentialChunk] None).
Proof.
  split.
  - apply (proj2 (anonymous_sees_only_public
                    [Sample.publicChunk; Sample.confidentialChunk] Sample.publicChunk)).
    split; [left; reflexivity | reflexivity].
  - intros H.
    apply (proj1 (anonymous_sees_only_public
                    [Sample.publicChunk; Sample.confidentialChunk]
                    Sample.confidentialChunk)) in H.
    destruct H as [_ H]. discriminate.
Defined.

(** ** Sorting and truncation keep the elements they are given *)

Lemma in_insert_desc key x y sorted :
  In x (insert_desc key y sorted) <-> x = y \/ In x sorted.
Proof.
  induction sorted as [|z rest IH]; simpl.
  - intuition congruence.
  - destruct (Qle_bool (key z) (key y)); simpl.
    + intuition congruence.
    + rewrite IH. intuition congruence.
Qed.

Lemma in_sort_desc key x arr : In x (sort_desc key arr) <-> In x arr.
Proof.
  induction arr as [|y rest IH]; simpl.
  - reflexivity.
  - rewrite in_insert_desc, IH. intuition congruence.
Qed.

Lemma in_slice_first {A} n (x : A) arr : In x (Js.slice_first n arr) -> In x arr.
Proof.
  unfold Js.slice_first. revert n. induction arr as [|y rest IH]; intros [|n]; simpl;
    try tauto.
  intros [H|H]; [left; exact H | right; eapply IH; exact H].
Qed.

(** ** Every returned passage has passed the filter *)

Lemma ranked_pass_filter P queryInfo isMonetary questionLower vs ks user c :
  In c (rankAndFilter P queryInfo isMonetary questionLower vs ks user) ->
  allowedBy user c = true.
Proof.
  unfold rankAndFilter. intros H.
  apply in_slice_first, in_sort_desc, in_filtered in H. tauto.
Qed.

Lemma searched_pass_filter P question session user chunks c :
  performHybridSearch P question session user = Returned chunks ->
  In c chunks -> allowedBy user c = true.
Proof.
  unfold performHybridSearch.
  destruct (vectorQuery session _ question) as [vectorRows|].
  - intros [= <-]. apply ranked_pass_filter.
  - destruct (fallbackQuery session question) as [fallbackRows|]; [|discriminate].
    intros [= <-] H. apply in_filtered in H. tauto.
Qed.

Lemma topChunks_pass_filter retrieved isFollowUp questionLower sessionData user c :
  (forall r, In r retrieved -> allowedBy user r = true) ->
  In c (topChunksOf retrieved isFollowUp questionLower sessionData user) ->
  allowedBy user c = true.
Proof.
  intros Hretrieved. unfold topChunksOf. intros H.
  apply in_slice_first, in_sort_desc in H.
  destruct (isFollowUp && (0 <? length (previousChunks sessionData))%nat);
    [|auto].
  apply in_app_or in H. destruct H as [H|H]; [auto|].
  apply in_map_iff in H. destruct H as (p & <- & Hp).
  apply in_filtered in Hp. destruct Hp as [_ Hp].
  rewrite <- Hp. apply allowedBy_ext; reflexivity.
Qed.

(** What a 200 response of [/api/retrieve] says about the run. *)
Lemma retrieve_200_inv P W req sessions payload sessions1 :
  retrieve P W req sessions = (Status200 payload, sessions1) ->
  exists question retrievedChunks,
    let sessionId := currentSessionIdOf W req in
    let sessionData := sessionDataOf (req_user req) sessionId sessions in
    let topChunks :=
      topChunksOf retrievedChunks (isFollowUpOf question sessionData)
        (questionLowerOf question) sessionData (req_user req) in
    body_question req = Some question
    /\ question <> ""
    /\ ownedByAnother (req_user req) sessionData = false
    /\ performHybridSearch P (searchQueryOf question sessionData) (neo4j W) (req_user req)
       = Returned retrievedChunks
    /\ p_retrievedChunks payload = List.map responseChunk topChunks
    /\ sessions1 =
       <[sessionId :=
           recordTurn sessionData (req_user req)
             {| sender := "user"; msg_text := question; timestamp := now_user W |}
             {| sender := "bot";
                msg_text :=
                  answer (generateResponse W question topChunks sessionId
                            (history sessionData));
                timestamp := now_bot W |}
             topChunks (questionKeywordsOf question)]> sessions.
Proof.
  unfold retrieve.
  destruct (body_question req) as [question|]; [|discriminate].
  destruct (String.eqb question "") eqn:Hq; [discriminate|].
  destruct (ownedByAnother _ _) eqn:Hown; [discriminate|].
  destruct (match req_user req with Some _ => negb (audit_ok W) | None => false end);
    [destruct (performHybridSearch _ _ _ _); discriminate|].
  destruct (performHybridSearch _ _ _ _) as [retrievedChunks|] eqn:Hsearch; [|discriminate].
  intros [= <- <-]. exists question, retrievedChunks. simpl.
  repeat split; try assumption; try reflexivity.
  apply String.eqb_neq. exact Hq.
Qed.

(** C3. Every passage of the result set of a served [/api/retrieve]
    request, whether freshly retrieved or taken from the session cache as
    prior context, is the projection of a chunk that the permission filter
    keeps for the user of this very request. *)
Theorem returned_passages_pass_filter
    (P : Patterns) (W : World) (req : Request)
    (sessions sessions1 : gmap string SessionData) (payload : Payload)
    (rc : ResponseChunk) :
  retrieve P W req sessions = (Status200 payload, sessions1) ->
  In rc (p_retrievedChunks payload) ->
  exists c, rc = responseChunk c /\ passesFilter (req_user req) c.
Proof.
  intros Hrun Hin.
  apply retrieve_200_inv in Hrun.
  destruct Hrun as (question & retrieved & _ & _ & _ & Hsearch & Hchunks & _).
  rewrite Hchunks in Hin. apply in_map_iff in Hin. destruct Hin as (c & <- & Hc).
  exists c. split; [reflexivity|]. apply passesFilter_allowedBy.
  eapply topChunks_pass_filter; [|exact Hc].
  intros r Hr. eapply searched_pass_filter; eassumption.
Qed.

Lemma returned_passages_pass_filter_witness :
  exists c,
    {| rc_text := "The company history began in 1853.";
       rc_id := "doc_1_chunk_0";
       rc_score := (252 # 250)%Q;
       rc_searchType := "previous_context";
       rc_accessLevel := "public";
       rc_departments := ["all"] |} = responseChunk c
    /\ passesFilter (req_user Sample.followUp) c.
Proof.
  eapply (returned_passages_pass_filter
            Sample.patterns Sample.world Sample.followUp Sample.sessions).
  - vm_compute. reflexivity.
  - simpl. right. left. reflexivity.
Defined.

(** ** Identifiers in the result set *)

(** [Sample.sessions] is the store that the first question leaves. *)
Lemma first_question_state :
  snd (retrieve Sample.patterns Sample.world Sample.firstQuestion ∅) = Sample.sessions.
Proof. vm_compute. reflexivity. Qed.

(** C4. The result set of a question may hold one identifier twice: after a
    first question has cached a passage, a short follow-up question that
    retrieves the same passage again also receives the cached copy, and
    both are returned. *)
Theorem followup_repeats_cached_passage :
  exists payload,
    fst (retrieve Sample.patterns Sample.world Sample.followUp
           (snd (retrieve Sample.patterns Sample.world Sample.firstQuestion ∅)))
    = Status200 payload
    /\ List.map rc_id (p_retrievedChunks payload)
       = ["doc_1_chunk_0"; "doc_1_chunk_0"]
    /\ List.map rc_searchType (p_retrievedChunks payload)
       = ["vector+keyword"; "previous_context"].
Proof.
  eexists. split; [vm_compute; reflexivity|]. split; reflexivity.
Qed.

(** The ranking itself merges by identifier: what [performHybridSearch]
    returns from its two indexes never repeats an identifier. *)

Lemma in_ids_merge_result uniqueResults result x :
  In x (List.map id (merge_result uniqueResults result)) ->
  x = id result \/ In x (List.map id uniqueResults).
Proof.
  induction uniqueResults as [|e rest IH]; simpl.
  - intuition.
  - destruct (String.eqb (id e) (id result)); simpl; intuition.
Qed.

Lemma NoDup_ids_merge_result uniqueResults result :
  List.NoDup (List.map id uniqueResults) ->
  List.NoDup (List.map id (merge_result uniqueResults result)).
Proof.
  induction uniqueResults as [|e rest IH]; simpl; intros Hnd.
  - constructor; [simpl; tauto | constructor].
  - destruct (String.eqb (id e) (id result)) eqn:He; simpl.
    + exact Hnd.
    + apply List.NoDup_cons_iff in Hnd. destruct Hnd as [Hnotin Hnd].
      apply List.NoDup_cons_iff. split; [|auto].
      intros Hin. apply in_ids_merge_result in Hin. destruct Hin as [Hin|Hin].
      * apply String.eqb_neq in He. congruence.
      * contradiction.
Qed.

Lemma NoDup_ids_fold_merge allResults acc :
  List.NoDup (List.map id acc) ->
  List.NoDup (List.map id (fold_left merge_result allResults acc)).
Proof.
  revert acc. induction allResults as [|r rest IH]; simpl; intros acc Hacc.
  - exact Hacc.
  - apply IH, NoDup_ids_merge_result, Hacc.
Qed.

Lemma ids_rankResult P queryInfo isMonetary questionLower results :
  List.map id (List.map (rankResult P queryInfo isMonetary questionLower) results)
  = List.map id results.
Proof. rewrite List.map_map. reflexivity. Qed.

Lemma NoDup_map_filter {A B} (f : A -> B) (p : A -> bool) l :
  List.NoDup (List.map f l) -> List.NoDup (List.map f (List.filter p l)).
Proof.
  induction l as [|a l IH]; simpl; intros Hnd; [constructor|].
  apply List.NoDup_cons_iff in Hnd. destruct Hnd as [Hnotin Hnd].
  destruct (p a); simpl; [|auto].
  apply List.NoDup_cons_iff. split; [|auto].
  intros Hin. apply Hnotin. apply in_map_iff in Hin. destruct Hin as (b & Hb & Hin).
  apply filter_In in Hin. apply in_map_iff. exists b. tauto.
Qed.

Lemma NoDup_map_slice_first {A B} (f : A -> B) n l :
  List.NoDup (List.map f l) -> List.NoDup (List.map f (Js.slice_first n l)).
Proof.
  unfold Js.slice_first. revert n. induction l as [|a l IH]; intros [|n]; simpl;
    intros Hnd; try constructor.
  - apply List.NoDup_cons_iff in Hnd. destruct Hnd as [Hnotin _].
    intros Hin. apply Hnotin. apply in_map_iff in Hin. destruct Hin as (b & Hb & Hin).
    apply in_map_iff. exists b. split; [exact Hb|]. eapply in_slice_first. exact Hin.
  - apply IH. apply List.NoDup_cons_iff in Hnd. tauto.
Qed.

Lemma insert_desc_perm key x sorted :
  Permutation (insert_desc key x sorted) (x :: sorted).
Proof.
  induction sorted as [|y rest IH]; simpl.
  - reflexivity.
  - destruct (Qle_bool (key y) (key x)).
    + reflexivity.
    + rewrite IH. apply perm_swap.
Qed.

Lemma sort_desc_perm key arr : Permutation (sort_desc key arr) arr.
Proof.
  induction arr as [|x rest IH]; simpl.
  - reflexivity.
  - rewrite insert_desc_perm, IH. reflexivity.
Qed.

Lemma ranking_ids_unique P queryInfo isMonetary questionLower vs ks user :
  List.NoDup (List.map id (rankAndFilter P queryInfo isMonetary questionLower vs ks user)).
Proof.
  unfold rankAndFilter. apply NoDup_map_slice_first.
  eapply Permutation_NoDup.
  { apply Permutation_map. symmetry. apply sort_desc_perm. }
  rewrite filter_as_allowedBy. apply NoDup_map_filter.
  unfold rankedResultsOf. rewrite ids_rankResult.
  apply NoDup_ids_fold_merge. constructor.
Qed.

(** ** Final scores against raw scores *)

Lemma boost_keeps_bound (s t f : Q) (b : bool) :
  (0 <= s)%Q /\ (s <= t)%Q -> (1 <= f)%Q ->
  (0 <= s)%Q /\ (s <= if b then t * f else t)%Q.
Proof.
  intros [Hs Hst] Hf. split; [exact Hs|]. destruct b; [|exact Hst]. nra.
Qed.

Lemma entity_boosts_keep_bound resultText (f : Q) entities (s t : Q) :
  (1 <= f)%Q -> (0 <= s)%Q /\ (s <= t)%Q ->
  (0 <= s)%Q /\ (s <= fold_left (entity_boost resultText f) entities t)%Q.
Proof.
  intros Hf. revert t. induction entities as [|e rest IH]; simpl; intros t Ht.
  - exact Ht.
  - apply IH. unfold entity_boost. apply boost_keeps_bound; assumption.
Qed.

Section Ranking.

Variable P : Patterns.
Variable queryInfo : QueryInfo.
Variable isMonetaryQuestion : bool.
Variable questionLower : string.

Lemma boostedScore_ge_score result :
  (0 <= score result)%Q ->
  (score result <= boostedScore P queryInfo isMonetaryQuestion questionLower result)%Q.
Proof.
  intros Hs. unfold boostedScore. cbv zeta.
  apply boost_keeps_bound; [|discriminate].
  apply entity_boosts_keep_bound; [discriminate|].
  apply entity_boosts_keep_bound; [discriminate|].
  apply boost_keeps_bound; [|discriminate].
  destruct isMonetaryQuestion.
  - apply boost_keeps_bound; [|discriminate].
    apply boost_keeps_bound; [|discriminate].
    apply boost_keeps_bound; [split; [exact Hs | apply Qle_refl]|].
    assert (0 <= inject_Z (Z.of_nat (monetary_matches P (Js.toLowerCase (text result)))))%Q.
    { unfold Qle. simpl. lia. }
    lra.
  - split; [exact Hs | apply Qle_refl].
Qed.

(** How one step of the merge changes the map of results. *)
Lemma merge_result_cases uniqueResults result r :
  List.NoDup (List.map id uniqueResults) ->
  In r (merge_result uniqueResults result) ->
  (In r uniqueResults /\ id r <> id result)
  \/ (exists e, In e uniqueResults /\ id e = id result /\ id r = id result
                /\ score r = Qmax (score e) (score result))
  \/ (r = result /\ ~ In (id result) (List.map id uniqueResults)).
Proof.
  induction uniqueResults as [|e rest IH]; simpl; intros Hnd Hin.
  - destruct Hin as [<-|[]]. right. right. tauto.
  - apply List.NoDup_cons_iff in Hnd. destruct Hnd as [Hnotin Hnd].
    destruct (String.eqb (id e) (id result)) eqn:He.
    + apply String.eqb_eq in He. destruct Hin as [<-|Hin].
      * right. left. exists e. simpl. tauto.
      * left. split; [tauto|]. intros Heq. apply Hnotin.
        rewrite He, <- Heq. apply in_map. exact Hin.
    + apply String.eqb_neq in He. destruct Hin as [<-|Hin].
      * left. tauto.
      * destruct (IH Hnd Hin) as [[H1 H2]|[(e' & H1 & H2 & H3 & H4)|[H1 H2]]].
        -- left. tauto.
        -- right. left. exists e'. tauto.
        -- right. right. split; [exact H1|]. intros [H|H]; [congruence|tauto].
Qed.

Lemma ids_kept_by_merge_result uniqueResults result x :
  In x (List.map id uniqueResults) \/ x = id result ->
  In x (List.map id (merge_result uniqueResults result)).
Proof.
  induction uniqueResults as [|e rest IH]; simpl.
  - intros [ [] | -> ]. left. reflexivity.
  - destruct (String.eqb (id e) (id result)) eqn:He; simpl.
    + apply String.eqb_eq in He. intros [[H|H]|H]; subst; auto.
    + intros [[H|H]|H]; auto.
Qed.

Lemma mergeInvariant_step uniqueResults seen result :
  mergeInvariant uniqueResults seen ->
  mergeInvariant (merge_result uniqueResults result) (seen ++ [result]).
Proof.
  intros (Hnd & Hcover & Hbound).
  split; [apply NoDup_ids_merge_result, Hnd|]. split.
  - intros x Hx. apply ids_kept_by_merge_result.
    apply in_app_or in Hx. destruct Hx as [Hx|[<-|[]]]; auto.
  - intros r x Hr Hx Hid.
    apply in_app_or in Hx.
    destruct (merge_result_cases _ _ _ Hnd Hr)
      as [[H1 H2]|[(e & H1 & H2 & H3 & H4)|[-> H2]]].
    + destruct Hx as [Hx|[<-|[]]]; [auto | congruence].
    + rewrite H4. destruct Hx as [Hx|[<-|[]]].
      * eapply Qle_trans; [|apply Q.le_max_l]. apply Hbound; congruence.
      * apply Q.le_max_r.
    + destruct Hx as [Hx|[<-|[]]]; [|apply Qle_refl].
      exfalso. apply H2. rewrite <- Hid. auto.
Qed.

Lemma mergeInvariant_fold allResults uniqueResults seen :
  mergeInvariant uniqueResults seen ->
  mergeInvariant (fold_left merge_result allResults uniqueResults) (seen ++ allResults).
Proof.
  revert uniqueResults seen.
  induction allResults as [|y rest IH]; simpl; intros uniqueResults seen Hinv.
  - rewrite app_nil_r. exact Hinv.
  - replace (seen ++ y :: rest) with ((seen ++ [y]) ++ rest)
      by (rewrite <- app_assoc; reflexivity).
    apply IH. apply mergeInvariant_step. exact Hinv.
Qed.

(** The merged score of an identifier bounds every raw score it earned. *)
Lemma merged_score_is_upper_bound allResults e x :
  In e (merge_all allResults) -> In x allResults -> id x = id e ->
  (score x <= score e)%Q.
Proof.
  intros He Hx Hid.
  destruct (mergeInvariant_fold allResults [] []) as (_ & _ & Hbound).
  { repeat split; simpl; try tauto. constructor. }
  exact (Hbound e x He Hx Hid).
Qed.

Lemma ranked_dominates_when_nonnegative allResults r :
  In r (rankedResultsOf P queryInfo isMonetaryQuestion questionLower allResults) ->
  hasNonnegativeScore allResults r ->
  finalScoreDominatesFor allResults r.
Proof.
  unfold rankedResultsOf. intros Hr (y & Hy & Hidy & Hpos) x Hx Hid.
  apply in_map_iff in Hr. destruct Hr as (e & <- & He).
  exists (boostedScore P queryInfo isMonetaryQuestion questionLower e).
  split; [reflexivity|].
  eapply Qle_trans; [apply (merged_score_is_upper_bound allResults e x He Hx Hid)|].
  apply boostedScore_ge_score.
  eapply Qle_trans; [exact Hpos|].
  apply (merged_score_is_upper_bound allResults e y He Hy Hidy).
Qed.

Lemma returned_are_ranked vectorResults keywordResults user r :
  In r (rankAndFilter P queryInfo isMonetaryQuestion questionLower
          vectorResults keywordResults user) ->
  In r (rankedResultsOf P queryInfo isMonetaryQuestion questionLower
          (vectorResults ++ keywordResults)).
Proof.
  unfold rankAndFilter. intros Hr.
  apply in_slice_first, in_sort_desc, in_filtered in Hr. tauto.
Qed.

(** C5. The scores that the search reads are those of the vector index
    and of the full-text index, which are never negative.  In every such
    ranking run each merged passage carries a final score that is at least
    the raw score of each candidate merged into it, hence at least their
    maximum; so do, in particular, the passages that the search returns. *)
Theorem final_score_dominates_nonnegative_scores
    (vectorResults keywordResults : list Chunk) (user : option User) :
  (forall y, In y (vectorResults ++ keywordResults) -> (0 <= score y)%Q) ->
  finalScoreDominates (vectorResults ++ keywordResults)
    (rankedResultsOf P queryInfo isMonetaryQuestion questionLower
       (vectorResults ++ keywordResults))
  /\ finalScoreDominates (vectorResults ++ keywordResults)
       (rankAndFilter P queryInfo isMonetaryQuestion questionLower
          vectorResults keywordResults user).
Proof.
  intros Hpos.
  assert (Hranked : finalScoreDominates (vectorResults ++ keywordResults)
                      (rankedResultsOf P queryInfo isMonetaryQuestion questionLower
                         (vectorResults ++ keywordResults))).
  { intros r Hr x Hx Hid.
    apply (ranked_dominates_when_nonnegative _ r Hr); [|exact Hx|exact Hid].
    exists x. auto. }
  split; [exact Hranked|].
  intros r Hr. apply Hranked. eapply returned_are_ranked. exact Hr.
Qed.

End Ranking.

Lemma final_score_dominates_nonnegative_scores_witness :
  finalScoreDominates
    ([chunk_of_row "vector" Sample.historyRow] ++ [chunk_of_row "keyword" Sample.historyRow])
    (rankedResultsOf Sample.patterns
       (preprocessQuery Sample.patterns "Describe the company history") false
       "describe the company history"
       ([chunk_of_row "vector" Sample.historyRow]
        ++ [chunk_of_row "keyword" Sample.historyRow]))
  /\ finalScoreDominates
       ([chunk_of_row "vector" Sample.historyRow]
        ++ [chunk_of_row "keyword" Sample.historyRow])
       (rankAndFilter Sample.patterns
          (preprocessQuery Sample.patterns "Describe the company history") false
          "describe the company history"
          [chunk_of_row "vector" Sample.historyRow]
          [chunk_of_row "keyword" Sample.historyRow] None).
Proof.
  apply (final_score_dominates_nonnegative_scores Sample.patterns
           (preprocessQuery Sample.patterns "Describe the company history") false
           "describe the company history"
           [chunk_of_row "vector" Sample.historyRow]
           [chunk_of_row "keyword" Sample.historyRow] None).
  intros y [<-|[<-|[]]]; vm_compute; discriminate.
Defined.

(** ** Expansion of follow-up questions *)

Lemma slice_last_all {A} n (l : list A) : (length l <= n)%nat -> Js.slice_last n l = l.
Proof.
  intros H. unfold Js.slice_last.
  replace (length l - n)%nat with 0%nat by lia. reflexivity.
Qed.

Lemma slice_first_all {A} n (l : list A) : (length l <= n)%nat -> Js.slice_first n l = l.
Proof. intros H. unfold Js.slice_first. apply firstn_all2. exact H. Qed.

(** C6. For a detected follow-up question that contains neither "total"
    nor "overall" (case-insensitively), the search string is the question, a
    space, and the first three of the session's ten most recent topic
    keywords, joined by spaces.  These are the three most recent keywords
    when the session holds at most three. *)
Theorem followup_appends_first_of_recent_topics
    (question : string) (sessionData : SessionData) :
  isFollowUpOf question sessionData = true ->
  Js.includes (questionLowerOf question) "total" = false ->
  Js.includes (questionLowerOf question) "overall" = false ->
  searchQueryOf question sessionData
  = (question ++ " " ++
     Js.join " " (Js.slice_first 3 (Js.slice_last 10 (topicKeywords sessionData))))%string
  /\ ((length (topicKeywords sessionData) <= 3)%nat ->
      searchQueryOf question sessionData = questionWithRecentTopics question sessionData).
Proof.
  intros Hfollow Htotal Hoverall.
  assert (Hquery :
    searchQueryOf question sessionData
    = (question ++ " " ++
       Js.join " " (Js.slice_first 3 (Js.slice_last 10 (topicKeywords sessionData))))%string).
  { unfold searchQueryOf. rewrite Hfollow. unfold expandQuery.
    rewrite Htotal, Hoverall. simpl orb.
    destruct (String.eqb_spec (questionLowerOf question) "and in total?") as [Heq|_];
      [|reflexivity].
    rewrite Heq in Htotal. vm_compute in Htotal. discriminate. }
  split; [exact Hquery|].
  intros Hlen. rewrite Hquery. unfold questionWithRecentTopics.
  rewrite (slice_last_all 10) by lia.
  rewrite (slice_last_all 3) by lia.
  rewrite slice_first_all by lia. reflexivity.
Qed.

Lemma followup_appends_first_of_recent_topics_witness :
  searchQueryOf "and then" Sample.anonymousSession
  = ("and then" ++ " " ++
     Js.join " "
       (Js.slice_first 3 (Js.slice_last 10 (topicKeywords Sample.anonymousSession))))%string
  /\ ((length (topicKeywords Sample.anonymousSession) <= 3)%nat ->
      searchQueryOf "and then" Sample.anonymousSession
      = questionWithRecentTopics "and then" Sample.anonymousSession).
Proof.
  apply (followup_appends_first_of_recent_topics "and then" Sample.anonymousSession);
    reflexivity.
Defined.

(** With four topic keywords the search string of a follow-up question
    carries the three oldest of them, and not the most recent one. *)
Lemma followup_misses_most_recent_topic :
  isFollowUpOf "and then" Sample.fourTopicSession = true
  /\ Js.includes "and then" "total" = false
  /\ Js.includes "and then" "overall" = false
  /\ searchQueryOf "and then" Sample.fourTopicSession
     = "and then describe company history"
  /\ questionWithRecentTopics "and then" Sample.fourTopicSession
     = "and then company history founders"
  /\ searchQueryOf "and then" Sample.fourTopicSession
     <> questionWithRecentTopics "and then" Sample.fourTopicSession.
Proof.
  repeat split; try reflexivity. vm_compute. discriminate.
Qed.

(** ** The cap on the stored history *)

Lemma slice_last_length {A} n (l : list A) : (length (Js.slice_last n l) <= n)%nat.
Proof. unfold Js.slice_last. rewrite length_drop. lia. Qed.

Lemma slice_last_app_ge {A} n (a b : list A) :
  (n <= length b)%nat -> Js.slice_last n (a ++ b) = Js.slice_last n b.
Proof.
  intros H. unfold Js.slice_last. rewrite length_app.
  rewrite drop_app_ge by lia. f_equal. lia.
Qed.

Lemma slice_last_app_slice_last {A} n (a b : list A) :
  Js.slice_last n (Js.slice_last n a ++ b) = Js.slice_last n (a ++ b).
Proof.
  unfold Js.slice_last. rewrite !length_app, length_drop.
  destruct (le_lt_dec (length a + length b - n) (length a)) as [Hle|Hgt].
  - rewrite (drop_app_le a) by exact Hle.
    rewrite drop_app_le by (rewrite length_drop; lia).
    rewrite drop_drop. f_equal. f_equal. lia.
  - rewrite (drop_app_ge a) by lia.
    rewrite drop_app_ge by (rewrite length_drop; lia).
    rewrite length_drop. f_equal. lia.
Qed.

Lemma history_recordTurn sessionData user userMessage botMessage topChunks keywords_ :
  history (recordTurn sessionData user userMessage botMessage topChunks keywords_)
  = Js.slice_last 20 (history sessionData ++ [userMessage; botMessage]).
Proof. reflexivity. Qed.

Lemma history_recordTurns turns : forall sessionData,
  turns <> [] ->
  history (recordTurns sessionData turns)
  = Js.slice_last 20 (history sessionData ++ messagesOf turns).
Proof.
  induction turns as [|t rest IH]; intros sessionData Hne; [congruence|].
  unfold recordTurns. simpl fold_left. fold (recordTurns
    (recordTurn sessionData (turn_user t) (turn_userMessage t) (turn_botMessage t)
       (turn_topChunks t) (turn_keywords t)) rest).
  destruct rest as [|t' rest'].
  - reflexivity.
  - rewrite IH by discriminate. rewrite history_recordTurn.
    rewrite slice_last_app_slice_last.
    change (messagesOf (t :: t' :: rest'))
      with ([turn_userMessage t; turn_botMessage t] ++ messagesOf (t' :: rest')).
    rewrite app_assoc. reflexivity.
Qed.

Lemma length_messagesOf turns : length (messagesOf turns) = (2 * length turns)%nat.
Proof.
  induction turns as [|t rest IH]; simpl; [reflexivity|]. rewrite IH. lia.
Qed.

(** After ten or more exchanges only the exchanges themselves remain. *)
Lemma history_after_many_turns sessionData turns :
  (10 <= length turns)%nat ->
  history (recordTurns sessionData turns) = Js.slice_last 20 (messagesOf turns).
Proof.
  intros Hlen. rewrite history_recordTurns by (destruct turns; simpl in *; [lia|discriminate]).
  apply slice_last_app_ge. rewrite length_messagesOf. lia.
Qed.

(** The session that a served request stores holds at most 20 messages. *)
Lemma retrieve_stores_capped_history P W req sessions payload sessions1 :
  retrieve P W req sessions = (Status200 payload, sessions1) ->
  exists sessionData1,
    sessions1 !! currentSessionIdOf W req = Some sessionData1
    /\ (length (history sessionData1) <= 20)%nat.
Proof.
  intros Hrun. apply retrieve_200_inv in Hrun.
  destruct Hrun as (question & retrieved & _ & _ & _ & _ & _ & ->).
  rewrite lookup_insert_eq. eexists. split; [reflexivity|].
  rewrite history_recordTurn. apply slice_last_length.
Qed.

(** C7. Whatever a session held before, after 25 recorded exchanges its
    history is the 20 most recent of the recorded messages, and is 20 long;
    no single record operation leaves more than 20 entries, and neither
    does a served request in the session it stores. *)
Theorem history_is_capped_at_twenty (sessionData : SessionData) (turns : list Turn) :
  length turns = 25%nat ->
  history (recordTurns sessionData turns) = Js.slice_last 20 (messagesOf turns)
  /\ length (history (recordTurns sessionData turns)) = 20%nat
  /\ (forall user userMessage botMessage topChunks keywords_,
        (length (history (recordTurn sessionData user userMessage botMessage
                            topChunks keywords_)) <= 20)%nat)
  /\ (forall P W req sessions payload sessions1,
        retrieve P W req sessions = (Status200 payload, sessions1) ->
        exists sessionData1,
          sessions1 !! currentSessionIdOf W req = Some sessionData1
          /\ (length (history sessionData1) <= 20)%nat).
Proof.
  intros Hlen.
  assert (Hhist : history (recordTurns sessionData turns)
                  = Js.slice_last 20 (messagesOf turns))
    by (apply history_after_many_turns; lia).
  split; [exact Hhist|]. split; [|split].
  - rewrite Hhist. unfold Js.slice_last. rewrite length_drop, length_messagesOf. lia.
  - intros. rewrite history_recordTurn. apply slice_last_length.
  - apply retrieve_stores_capped_history.
Qed.

Lemma history_is_capped_at_twenty_witness :
  history (recordTurns Sample.anonymousSession (repeat Sample.exchange 25))
  = Js.slice_last 20 (messagesOf (repeat Sample.exchange 25))
  /\ length (history (recordTurns Sample.anonymousSession (repeat Sample.exchange 25)))
     = 20%nat.
Proof.
  destruct (history_is_capped_at_twenty Sample.anonymousSession
              (repeat Sample.exchange 25) eq_refl) as (H1 & H2 & _).
  split; [exact H1 | exact H2].
Defined.

(** ** Failure of the keyword path *)

(** C8. When the vector query returns and the full-text query throws,
    [performHybridSearch] returns, and what it returns is the ranking of the
    vector results alone; no exception reaches its caller. *)
Theorem keyword_failure_is_not_fatal
    (P : Patterns) (question : string) (session : Neo4j) (user : option User)
    (vectorRows : list Row) (message : string) :
  vectorQuery session (limitOf P question) question = Records vectorRows ->
  keywordQuery session (limitOf P question)
    (searchKeywordsFor (preprocessQuery P question) (isMonetaryOf P question))
  = Failed message ->
  performHybridSearch P question session user
  = Returned
      (rankAndFilter P (preprocessQuery P question) (isMonetaryOf P question)
         (Js.toLowerCase question)
         (List.map (chunk_of_row "vector") vectorRows) [] user).
Proof.
  unfold limitOf, isMonetaryOf, performHybridSearch. intros Hvector Hkeyword.
  rewrite Hvector, Hkeyword. reflexivity.
Qed.

Lemma keyword_failure_is_not_fatal_witness :
  performHybridSearch Sample.patterns "Describe the company history"
    Sample.storeWithoutFulltext None
  = Returned
      (rankAndFilter Sample.patterns
         (preprocessQuery Sample.patterns "Describe the company history")
         (isMonetaryOf Sample.patterns "Describe the company history")
         (Js.toLowerCase "Describe the company history")
         (List.map (chunk_of_row "vector") [Sample.historyRow]) [] None).
Proof.
  apply (keyword_failure_is_not_fatal Sample.patterns "Describe the company history"
           Sample.storeWithoutFulltext None [Sample.historyRow]
           "There is no such fulltext schema index");
    reflexivity.
Defined.

(** ** Session ownership *)

Lemma ownedByAnother_iff user sessionData :
  ownedByAnother user sessionData = true
  <-> exists u owner,
        user = Some u /\ userId sessionData = Some owner /\ owner <> user_id u.
Proof.
  unfold ownedByAnother. split.
  - destruct user as [u|]; [|discriminate].
    destruct (userId sessionData) as [owner|]; [|discriminate].
    intros H. exists u, owner. repeat split.
    apply negb_true_iff, Pos.eqb_neq in H. exact H.
  - intros (u & owner & -> & -> & Hne).
    apply negb_true_iff, Pos.eqb_neq. exact Hne.
Qed.

Lemma ownedByAnother_stored caller creator sessionId sessions :
  (creator = caller \/ creator = None) ->
  ownedByAnother caller (sessionDataOf creator sessionId sessions) = true
  <-> ownedByOther caller sessionId sessions.
Proof.
  intros Hcreator. rewrite ownedByAnother_iff. unfold sessionDataOf, ownedByOther.
  destruct (sessions !! sessionId) as [sd|]; split.
  - intros (u & owner & H1 & H2 & H3). exists u, sd, owner. tauto.
  - intros (u & sd' & owner & H1 & [= <-] & H2 & H3). exists u, owner. tauto.
  - intros (u & owner & -> & H2 & H3). exfalso.
    destruct Hcreator as [->| ->]; simpl in H2; congruence.
  - intros (u & sd' & owner & _ & H & _). discriminate.
Qed.

Lemma retrieve_403_iff P W req sessions :
  fst (retrieve P W req sessions) = Status403
  <-> exists question,
        body_question req = Some question /\ question <> ""
        /\ ownedByAnother (req_user req)
             (sessionDataOf (req_user req) (currentSessionIdOf W req) sessions) = true.
Proof.
  unfold retrieve.
  destruct (body_question req) as [question|];
    [|split; [discriminate | intros (q & H & _); discriminate]].
  destruct (String.eqb_spec question "") as [->|Hq].
  { split; [discriminate | intros (q & [= <-] & H & _); congruence]. }
  destruct (ownedByAnother _ _) eqn:Hown.
  { split; [intros _; exists question; auto | reflexivity]. }
  split; [|intros (q & _ & _ & H); discriminate].
  destruct (match req_user req with Some _ => negb (audit_ok W) | None => false end);
    destruct (performHybridSearch _ _ _ _); discriminate.
Qed.

(** C9. The ownership conflict is answered exactly when the caller is
    authenticated, the session has a recorded owner and that owner is
    another user, and, on [/api/retrieve], the request carries a question:
    without one the request is answered 400 before the session is looked
    at.  A caller without a token is never refused for ownership.  The
    conversation endpoint hands it the history, the cache size, the topic
    keywords and the owner of an owned session.  The retrieval endpoint
    answers it 400 without a question and 500 when the search throws;
    otherwise it answers 200, having passed the history of the session to
    the answer generator and, on a follow-up, having merged in the first
    two cached passages that share a word with the question, as far as they
    are public. *)
Theorem ownership_conflict_only_for_other_user
    (P : Patterns) (W : World) (req : Request) (caller : option User)
    (sessionId : string) (sessions : gmap string SessionData) :
  (getConversation caller sessionId sessions = Conversation403
   <-> ownedByOther caller sessionId sessions)
  /\ (fst (retrieve P W req sessions) = Status403
      <-> (exists question, body_question req = Some question /\ question <> "")
          /\ ownedByOther (req_user req) (currentSessionIdOf W req) sessions)
  /\ (forall sessionData,
        sessions !! sessionId = Some sessionData ->
        getConversation None sessionId sessions
        = Conversation200
            {| cv_sessionId := sessionId;
               cv_history := history sessionData;
               cv_messageCount := length (history sessionData);
               cv_cachedChunks := length (previousChunks sessionData);
               cv_topicKeywords := topicKeywords sessionData;
               cv_owner := userId sessionData |})
  /\ (req_user req = None ->
      fst (retrieve P W req sessions) <> Status403
      /\ (body_question req = None \/ body_question req = Some "" ->
          fst (retrieve P W req sessions) = Status400)
      /\ forall question sessionData,
           body_question req = Some question -> question <> "" ->
           sessions !! currentSessionIdOf W req = Some sessionData ->
           (forall message,
              performHybridSearch P (searchQueryOf question sessionData) (neo4j W) None
              = Thrown message ->
              fst (retrieve P W req sessions) = Status500)
           /\ (forall retrievedChunks,
                 performHybridSearch P (searchQueryOf question sessionData) (neo4j W) None
                 = Returned retrievedChunks ->
                 let questionWords :=
                   List.filter (fun w => (3 <? String.length w)%nat)
                     (Js.split_ws (Js.trim (Js.toLowerCase question))) in
                 let relevantPrevious :=
                   Js.slice_first 2
                     (List.filter
                        (fun chunk =>
                           existsb
                             (fun word => Js.includes (Js.toLowerCase (text chunk)) word)
                             questionWords)
                        (List.map snd (previousChunks sessionData))) in
                 let filteredPrevious :=
                   List.filter (fun chunk => String.eqb (access_level chunk) "public")
                     relevantPrevious in
                 let combinedChunks :=
                   if (String.length (Js.trim (Js.toLowerCase question)) <? 20)%nat
                      && (0 <? length (history sessionData))%nat
                      && (0 <? length (previousChunks sessionData))%nat
                   then
                     retrievedChunks ++
                     List.map
                       (fun chunk =>
                          {| text := text chunk;
                             id := id chunk;
                             access_level := access_level chunk;
                             departments := departments chunk;
                             score := score chunk;
                             searchType := "previous_context";
                             finalScore := Some (effectiveScore chunk * (4 # 5))%Q |})
                       filteredPrevious
                   else retrievedChunks in
                 let topChunks :=
                   Js.slice_first 5 (sort_desc effectiveScore combinedChunks) in
                 exists payload,
                   fst (retrieve P W req sessions) = Status200 payload
                   /\ p_retrievedChunks payload = List.map responseChunk topChunks
                   /\ p_answer payload
                      = answer (generateResponse W question topChunks
                                  (currentSessionIdOf W req) (history sessionData)))).
Proof.
  split; [|split; [|split]].
  - unfold getConversation.
    rewrite <- (ownedByAnother_stored caller None) by (right; reflexivity).
    destruct (ownedByAnother _ _); split; intros H; try reflexivity; discriminate.
  - rewrite <- (ownedByAnother_stored _ (req_user req)) by (left; reflexivity).
    rewrite retrieve_403_iff. split.
    + intros (q & Hq & Hne & H). split; [exists q; auto | exact H].
    + intros [(q & Hq & Hne) H]. exists q. auto.
  - intros sessionData Hsd. unfold getConversation, sessionDataOf. rewrite Hsd.
    reflexivity.
  - intros Hanon. split; [|split].
    + rewrite retrieve_403_iff. intros (q & _ & _ & H). rewrite Hanon in H.
      discriminate.
    + unfold retrieve. intros [-> | ->]; reflexivity.
    + intros question sessionData Hquestion Hne Hsd.
      apply String.eqb_neq in Hne.
      unfold retrieve. rewrite Hquestion, Hne, Hanon. cbv zeta.
      unfold sessionDataOf. rewrite Hsd. cbn [ownedByAnother].
      split.
      * intros message ->. reflexivity.
      * intros retrievedChunks ->. eexists. split; [reflexivity|].
        split; reflexivity.
Qed.

Lemma ownership_conflict_only_for_other_user_witness :
  fst (retrieve Sample.patterns Sample.world Sample.followUpByAgent Sample.ownedSessions)
  = Status403
  /\ exists payload,
       fst (retrieve Sample.patterns Sample.world Sample.followUp Sample.ownedSessions)
       = Status200 payload
       /\ List.map rc_searchType (p_retrievedChunks payload)
          = ["vector+keyword"; "previous_context"].
Proof.
  split.
  - apply (proj1 (proj2 (ownership_conflict_only_for_other_user
             Sample.patterns Sample.world Sample.followUpByAgent
             (Some Sample.agent) "s1" Sample.ownedSessions))).
    split.
    + exists "and the history". split; [reflexivity | discriminate].
    + exists Sample.agent, Sample.ownedSession, (user_id Sample.executive).
      repeat split. discriminate.
  - destruct (proj2 (proj2 (proj2 (ownership_conflict_only_for_other_user
                Sample.patterns Sample.world Sample.followUp
                None "s1" Sample.ownedSessions))) eq_refl) as (_ & _ & Hserved).
    destruct (Hserved "and the history" Sample.ownedSession eq_refl
                ltac:(discriminate) eq_refl) as [_ Hreturned].
    destruct (Hreturned [Sample.cachedHistoryChunk] eq_refl)
      as (payload & Hpayload & Hchunks & _).
    exists payload. split; [exact Hpayload|]. rewrite Hchunks. reflexivity.
Defined.

(** As it was worded, for every request: the agent who addresses the
    session of the executive without a question is answered 400 and not
    403, and a caller without a token who addresses that session while the
    store is down is answered 500. *)
Lemma ownership_conflict_needs_question_and_search :
  ownedByOther (req_user Sample.questionlessByAgent)
    (currentSessionIdOf Sample.world Sample.questionlessByAgent) Sample.ownedSessions
  /\ fst (retrieve Sample.patterns Sample.world Sample.questionlessByAgent
            Sample.ownedSessions) = Status400
  /\ req_user Sample.followUp = None
  /\ fst (retrieve Sample.patterns Sample.brokenWorld Sample.followUp
            Sample.ownedSessions) = Status500.
Proof.
  split; [|repeat split].
  exists Sample.agent, Sample.ownedSession, (user_id Sample.executive).
  repeat split. discriminate.
Qed.

(** C10. A served request of an authenticated user on a session without a
    recorded owner, whether new or left by anonymous callers, stores the
    session with that user as its owner; from then on a question sent to
    this session by any other authenticated user is refused. *)
Theorem authenticated_request_takes_unowned_session
    (P : Patterns) (W : World) (req : Request)
    (sessions : gmap string SessionData) (payload : Payload) (u : User) :
  req_user req = Some u ->
  (forall sessionData,
     sessions !! currentSessionIdOf W req = Some sessionData ->
     userId sessionData = None) ->
  fst (retrieve P W req sessions) = Status200 payload ->
  (exists sessionData1,
     snd (retrieve P W req sessions) !! currentSessionIdOf W req = Some sessionData1
     /\ userId sessionData1 = Some (user_id u))
  /\ (forall W2 req2 u2 question2,
        req_user req2 = Some u2 -> user_id u2 <> user_id u ->
        currentSessionIdOf W2 req2 = currentSessionIdOf W req ->
        body_question req2 = Some question2 -> question2 <> "" ->
        fst (retrieve P W2 req2 (snd (retrieve P W req sessions))) = Status403).
Proof.
  intros Huser _ Hrun.
  destruct (retrieve P W req sessions) as [response sessions1] eqn:Hretrieve.
  simpl in Hrun. subst response. simpl snd.
  apply retrieve_200_inv in Hretrieve.
  destruct Hretrieve as (question & retrieved & _ & _ & _ & _ & _ & Hstate).
  assert (Hstored : exists sessionData1,
             sessions1 !! currentSessionIdOf W req = Some sessionData1
             /\ userId sessionData1 = Some (user_id u)).
  { rewrite Hstate, lookup_insert_eq. eexists. split; [reflexivity|].
    rewrite Huser. reflexivity. }
  split; [exact Hstored|].
  intros W2 req2 u2 question2 Huser2 Hother Hsame Hquestion2 Hne2.
  apply retrieve_403_iff. exists question2. split; [exact Hquestion2|].
  split; [exact Hne2|].
  apply ownedByAnother_stored; [left; reflexivity|].
  destruct Hstored as (sd1 & Hsd1 & Howner).
  exists u2, sd1, (user_id u). rewrite Hsame. auto.
Qed.

Lemma authenticated_request_takes_unowned_session_witness :
  exists sessionData1,
    snd (retrieve Sample.patterns Sample.world Sample.followUpByAgent Sample.sessions)
    !! currentSessionIdOf Sample.world Sample.followUpByAgent = Some sessionData1
    /\ userId sessionData1 = Some (user_id Sample.agent).
Proof.
  eapply proj1.
  eapply (authenticated_request_takes_unowned_session
            Sample.patterns Sample.world Sample.followUpByAgent Sample.sessions).
  - reflexivity.
  - intros sessionData H. vm_compute in H. injection H as <-. reflexivity.
  - vm_compute. reflexivity.
Defined.

(** * Further properties of the code *)

(** ** The permission filter: what each kind of caller gets *)

Lemma filter_all_true {A} (p : A -> bool) l :
  (forall x, In x l -> p x = true) -> List.filter p l = l.
Proof.
  induction l as [|a l IH]; simpl; intros H; [reflexivity|].
  rewrite (H a) by auto. f_equal. apply IH. auto.
Qed.

Lemma chunkAllowed_admin u c : role u = "admin" -> chunkAllowed u c = true.
Proof. intros H. unfold chunkAllowed. rewrite H. reflexivity. Qed.

(** X1. An admin is shown every candidate, whatever its access level or
    its tags, known or not, and in the order given. *)
Theorem admin_sees_every_chunk (chunks : list Chunk) (u : User) :
  role u = "admin" ->
  filterChunksByPermissions chunks (Some u) = chunks.
Proof.
  intros Hadmin. simpl. apply filter_all_true.
  intros c _. apply chunkAllowed_admin, Hadmin.
Qed.

Lemma admin_sees_every_chunk_witness :
  filterChunksByPermissions Scenario.library (Some Scenario.administrator)
  = Scenario.library.
Proof.
  apply (admin_sees_every_chunk Scenario.library Scenario.administrator).
  reflexivity.
Defined.

(** X2. The filter fails closed: a caller who is not an admin is never
    shown a passage whose access level is not one of the four known
    levels. *)
Theorem unknown_level_is_denied
    (chunks : list Chunk) (user : option User) (c : Chunk) :
  In c (filterChunksByPermissions chunks user) ->
  (forall u, user = Some u -> role u <> "admin") ->
  access_level c = "public" \/ access_level c = "departmental"
  \/ access_level c = "internal" \/ access_level c = "confidential".
Proof.
  intros Hin Hnot. apply in_filtered in Hin. destruct Hin as [_ Hallowed].
  destruct user as [u|]; simpl in Hallowed.
  - specialize (Hnot u eq_refl). apply String.eqb_neq in Hnot.
    unfold chunkAllowed in Hallowed. rewrite Hnot in Hallowed.
    destruct (String.eqb_spec (access_level c) "public"); [auto|].
    destruct (String.eqb_spec (access_level c) "departmental"); [auto|].
    destruct (String.eqb_spec (access_level c) "internal"); [auto|].
    destruct (String.eqb_spec (access_level c) "confidential"); [auto|].
    discriminate.
  - left. apply String.eqb_eq. exact Hallowed.
Qed.

Lemma unknown_level_is_denied_witness :
  access_level Scenario.underwritingChunk = "public"
  \/ access_level Scenario.underwritingChunk = "departmental"
  \/ access_level Scenario.underwritingChunk = "internal"
  \/ access_level Scenario.underwritingChunk = "confidential".
Proof.
  apply (unknown_level_is_denied Scenario.library (Some Scenario.underwriter)
           Scenario.underwritingChunk).
  - vm_compute. right. left. reflexivity.
  - intros u [= <-]. discriminate.
Defined.

Lemma filter_filter_same {A} (p : A -> bool) l :
  List.filter p (List.filter p l) = List.filter p l.
Proof.
  induction l as [|a l IH]; simpl; [reflexivity|].
  destruct (p a) eqn:Hp; simpl; [rewrite Hp, IH|]; auto.
Qed.

Lemma filter_is_sublist {A} (p : A -> bool) l : sublist (List.filter p l) l.
Proof.
  induction l as [|a l IH]; simpl; [constructor|].
  destruct (p a); [apply sublist_skip | apply sublist_cons]; exact IH.
Qed.

(** X3. Filtering keeps the candidates in their order, dropping some
    (the output is a sublist of the input), and filtering the output
    again for the same caller changes nothing. *)
Theorem filter_is_stable_and_idempotent (chunks : list Chunk) (user : option User) :
  sublist (filterChunksByPermissions chunks user) chunks
  /\ filterChunksByPermissions (filterChunksByPermissions chunks user) user
     = filterChunksByPermissions chunks user.
Proof.
  rewrite !filter_as_allowedBy. split.
  - apply filter_is_sublist.
  - apply filter_filter_same.
Qed.

Lemma chunkAllowed_public u c : access_level c = "public" -> chunkAllowed u c = true.
Proof.
  intros H. unfold chunkAllowed. rewrite H.
  destruct (String.eqb (role u) "admin"); reflexivity.
Qed.

(** X4. Signing in never hides a passage: whatever an anonymous caller is
    shown, every authenticated user is shown too. *)
Theorem authenticated_sees_what_anonymous_sees
    (chunks : list Chunk) (u : User) (c : Chunk) :
  In c (filterChunksByPermissions chunks None) ->
  In c (filterChunksByPermissions chunks (Some u)).
Proof.
  rewrite !in_filtered. simpl. intros [Hin Hpublic]. split; [exact Hin|].
  apply chunkAllowed_public, String.eqb_eq, Hpublic.
Qed.

Lemma authenticated_sees_what_anonymous_sees_witness :
  In Sample.publicChunk
    (filterChunksByPermissions Scenario.library (Some Sample.agent)).
Proof.
  apply (authenticated_sees_what_anonymous_sees Scenario.library Sample.agent).
  vm_compute. left. reflexivity.
Defined.

(** X5. The filter reads the department of the user without regard to
    case, and a user without a department is treated as one whose
    department is the empty string. *)
Theorem department_case_is_ignored
    (chunks : list Chunk) (u : User) (d1 d2 : string) :
  Js.toLowerCase d1 = Js.toLowerCase d2 ->
  filterChunksByPermissions chunks (Some (withDepartment u (Some d1)))
  = filterChunksByPermissions chunks (Some (withDepartment u (Some d2)))
  /\ filterChunksByPermissions chunks (Some (withDepartment u None))
     = filterChunksByPermissions chunks (Some (withDepartment u (Some ""))).
Proof.
  intros Hcase. simpl. split; apply filter_ext; intros c; unfold chunkAllowed; simpl.
  - rewrite Hcase. reflexivity.
  - reflexivity.
Qed.

Lemma department_case_is_ignored_witness :
  filterChunksByPermissions Scenario.library
    (Some (withDepartment Scenario.underwriter (Some "Underwriting")))
  = filterChunksByPermissions Scenario.library
      (Some (withDepartment Scenario.underwriter (Some "UNDERWRITING"))).
Proof.
  apply (department_case_is_ignored Scenario.library Scenario.underwriter
           "Underwriting" "UNDERWRITING").
  reflexivity.
Defined.

(** ** The ranking: identifiers, order and truncation *)

Lemma ids_fold_merge allResults acc x :
  In x (List.map id (fold_left merge_result allResults acc))
  <-> In x (List.map id acc) \/ In x (List.map id allResults).
Proof.
  revert acc. induction allResults as [|r rest IH]; simpl; intros acc.
  - tauto.
  - rewrite IH. split.
    + intros [H|H]; [|tauto]. apply in_ids_merge_result in H.
      destruct H as [->|H]; auto.
    + intros [H|[H|H]]; auto; left; apply ids_kept_by_merge_result; auto.
Qed.

(** X6. The merge by identifier neither loses nor invents a passage: the
    identifiers of the ranked results are those of the candidates of the
    two indexes, each exactly once. *)
Theorem ranked_ids_are_candidate_ids
    (P : Patterns) (queryInfo : QueryInfo) (isMonetaryQuestion : bool)
    (questionLower : string) (allResults : list Chunk) :
  List.NoDup
    (List.map id (rankedResultsOf P queryInfo isMonetaryQuestion questionLower allResults))
  /\ forall i,
       In i (List.map id
               (rankedResultsOf P queryInfo isMonetaryQuestion questionLower allResults))
       <-> In i (List.map id allResults).
Proof.
  unfold rankedResultsOf. rewrite ids_rankResult. split.
  - apply NoDup_ids_fold_merge. constructor.
  - intros i. unfold merge_all. rewrite ids_fold_merge. simpl. tauto.
Qed.

Lemma insert_desc_sorted (key : Chunk -> Q) x sorted :
  descendingBy key sorted -> descendingBy key (insert_desc key x sorted).
Proof.
  unfold descendingBy. induction sorted as [|y rest IH]; simpl; intros Hs.
  - constructor; constructor.
  - apply StronglySorted_inv in Hs. destruct Hs as [Hrest Hy].
    destruct (Qle_bool (key y) (key x)) eqn:Hle.
    + apply Qle_bool_iff in Hle. constructor.
      * constructor; assumption.
      * constructor; [exact Hle|].
        rewrite List.Forall_forall in Hy |- *. intros z Hz.
        eapply Qle_trans; [apply (Hy z Hz) | exact Hle].
    + constructor; [apply IH, Hrest|].
      rewrite List.Forall_forall in Hy |- *. intros z Hz.
      apply in_insert_desc in Hz. destruct Hz as [->|Hz]; [|auto].
      destruct (Qlt_le_dec (key x) (key y)) as [Hlt|Hge].
      * apply Qlt_le_weak, Hlt.
      * apply Qle_bool_iff in Hge. congruence.
Qed.

Lemma sort_desc_sorted key arr : descendingBy key (sort_desc key arr).
Proof.
  induction arr as [|x rest IH]; simpl.
  - constructor.
  - apply insert_desc_sorted, IH.
Qed.

Lemma descending_take {A} (key : A -> Q) n l :
  descendingBy key l -> descendingBy key (Js.slice_first n l).
Proof.
  unfold descendingBy, Js.slice_first. revert n.
  induction l as [|a l IH]; intros [|n] Hs; simpl; try constructor.
  - apply IH. apply StronglySorted_inv in Hs. tauto.
  - apply StronglySorted_inv in Hs. destruct Hs as [_ Ha].
    rewrite List.Forall_forall in Ha |- *. intros z Hz. apply Ha.
    eapply (in_slice_first n). exact Hz.
Qed.

Lemma descending_app {A} (key : A -> Q) l1 l2 a b :
  descendingBy key (l1 ++ l2) -> In a l1 -> In b l2 -> (key b <= key a)%Q.
Proof.
  unfold descendingBy. induction l1 as [|x l1 IH]; simpl; intros Hs Ha Hb; [tauto|].
  apply StronglySorted_inv in Hs. destruct Hs as [Hrest Hx].
  destruct Ha as [->|Ha]; [|auto].
  rewrite List.Forall_forall in Hx. apply Hx, in_or_app. auto.
Qed.

Lemma length_slice_first {A} n (l : list A) : (length (Js.slice_first n l) <= n)%nat.
Proof. unfold Js.slice_first. rewrite length_take. lia. Qed.

(** What is cut off by [slice(0, n)] of a sorted array scores no more than
    what is kept. *)
Lemma cut_off_scores_less {A} (key : A -> Q) n l a b :
  descendingBy key l -> In a (Js.slice_first n l) -> In b l ->
  ~ In b (Js.slice_first n l) -> (key b <= key a)%Q.
Proof.
  intros Hs Ha Hb Hnot. unfold Js.slice_first in *.
  rewrite <- (take_drop n l) in Hs, Hb.
  apply in_app_or in Hb. destruct Hb as [Hb|Hb]; [contradiction|].
  eapply descending_app; eassumption.
Qed.

(** X7. On its main path the search returns at most five passages, each
    with a final score, the best first; every passage it ranked and was
    allowed to show but left out scores no more than each one returned, and
    nothing is left out when at most five are allowed. *)
Theorem ranking_returns_best_five
    (P : Patterns) (queryInfo : QueryInfo) (isMonetaryQuestion : bool)
    (questionLower : string) (vectorResults keywordResults : list Chunk)
    (user : option User) :
  let allowedResults :=
    filterChunksByPermissions
      (rankedResultsOf P queryInfo isMonetaryQuestion questionLower
         (vectorResults ++ keywordResults)) user in
  let topResults :=
    rankAndFilter P queryInfo isMonetaryQuestion questionLower
      vectorResults keywordResults user in
  (length topResults <= 5)%nat
  /\ descendingBy rankKey topResults
  /\ (forall r, In r topResults ->
        In r allowedResults /\ finalScore r = Some (rankKey r))
  /\ (forall r r', In r topResults -> In r' allowedResults -> ~ In r' topResults ->
        (rankKey r' <= rankKey r)%Q)
  /\ ((length allowedResults <= 5)%nat ->
      forall r', In r' allowedResults -> In r' topResults).
Proof.
  intros allowedResults topResults.
  assert (Hdef : topResults = Js.slice_first 5 (sort_desc rankKey allowedResults))
    by reflexivity.
  split; [rewrite Hdef; apply length_slice_first|].
  split; [rewrite Hdef; apply descending_take, sort_desc_sorted|].
  split; [|split].
  - intros r Hr. rewrite Hdef in Hr. apply in_slice_first, in_sort_desc in Hr.
    split; [exact Hr|].
    apply in_filtered in Hr. destruct Hr as [Hr _].
    apply in_map_iff in Hr. destruct Hr as (e & <- & _). reflexivity.
  - intros r r' Hr Hr' Hnot. rewrite Hdef in Hr, Hnot.
    eapply cut_off_scores_less; [apply sort_desc_sorted | exact Hr | | exact Hnot].
    apply in_sort_desc. exact Hr'.
  - intros Hlen r' Hr'. rewrite Hdef. rewrite slice_first_all.
    + apply in_sort_desc. exact Hr'.
    + rewrite (Permutation_length (sort_desc_perm rankKey allowedResults)). exact Hlen.
Qed.

Lemma ranking_returns_best_five_witness :
  In (rankResult Sample.patterns
        (preprocessQuery Sample.patterns "Describe the company history") false
        "describe the company history" (chunk_of_row "vector" Sample.historyRow))
    (rankAndFilter Sample.patterns
       (preprocessQuery Sample.patterns "Describe the company history") false
       "describe the company history"
       [chunk_of_row "vector" Sample.historyRow] [] None).
Proof.
  apply (proj2 (proj2 (proj2 (proj2 (ranking_returns_best_five Sample.patterns
           (preprocessQuery Sample.patterns "Describe the company history") false
           "describe the company history"
           [chunk_of_row "vector" Sample.historyRow] [] None))))).
  - simpl. lia.
  - left. reflexivity.
Defined.

(** X8. The search throws only when the vector query and the fallback
    query both fail, and then with the error of the fallback query.  When
    the vector query fails and the fallback query answers, the rows of the
    fallback are returned in the order of the store, filtered for the
    caller, tagged [vector_fallback] and without a final score. *)
Theorem search_throws_only_when_fallback_fails
    (P : Patterns) (question : string) (session : Neo4j) (user : option User) :
  (forall message,
     performHybridSearch P question session user = Thrown message
     <-> (exists m, vectorQuery session (limitOf P question) question = Failed m)
         /\ fallbackQuery session question = Failed message)
  /\ (forall m fallbackRows,
        vectorQuery session (limitOf P question) question = Failed m ->
        fallbackQuery session question = Records fallbackRows ->
        performHybridSearch P question session user
        = Returned
            (filterChunksByPermissions
               (List.map (chunk_of_row "vector_fallback") fallbackRows) user)).
Proof.
  unfold limitOf, isMonetaryOf, performHybridSearch. split.
  - intros message.
    destruct (vectorQuery session _ question) as [rows|m].
    + split; [discriminate | intros [[m' H] _]; discriminate].
    + destruct (fallbackQuery session question) as [rows|m'].
      * split; [discriminate | intros [_ H]; discriminate].
      * split.
        -- intros [= <-]. split; [exists m|]; reflexivity.
        -- intros [_ [= <-]]. reflexivity.
  - intros m rows Hvector Hfallback. rewrite Hvector, Hfallback. reflexivity.
Qed.

Lemma search_throws_only_when_fallback_fails_witness :
  performHybridSearch Sample.patterns "Describe the company history"
    Scenario.storeOnFallback None
  = Returned
      (filterChunksByPermissions
         (List.map (chunk_of_row "vector_fallback") [Sample.historyRow]) None).
Proof.
  apply (proj2 (search_throws_only_when_fallback_fails Sample.patterns
                  "Describe the company history" Scenario.storeOnFallback None)
           "vector index is not online" [Sample.historyRow]);
    reflexivity.
Defined.

(** ** The retrieval endpoint: responses and the session store *)

(** The four ways the handler of [/api/retrieve] can end. *)
Lemma retrieve_without_question P W req sessions :
  body_question req = None \/ body_question req = Some "" ->
  retrieve P W req sessions = (Status400, sessions).
Proof. unfold retrieve. intros [-> | ->]; reflexivity. Qed.

Lemma retrieve_refused P W req sessions question :
  body_question req = Some question -> question <> "" ->
  ownedByAnother (req_user req) (addressedSession W req sessions) = true ->
  retrieve P W req sessions = (Status403, sessions).
Proof.
  unfold retrieve, addressedSession. intros -> Hq Hown.
  apply String.eqb_neq in Hq. rewrite Hq. cbv zeta. rewrite Hown. reflexivity.
Qed.

Lemma retrieve_search_failed P W req sessions question message :
  body_question req = Some question -> question <> "" ->
  ownedByAnother (req_user req) (addressedSession W req sessions) = false ->
  performHybridSearch P (searchQueryOf question (addressedSession W req sessions))
    (neo4j W) (req_user req) = Thrown message ->
  retrieve P W req sessions
  = (if auditFails W req then NoResponse else Status500, sessions).
Proof.
  unfold retrieve, addressedSession. intros -> Hq Hown Hsearch.
  apply String.eqb_neq in Hq. rewrite Hq. cbv zeta. rewrite Hown, Hsearch.
  unfold auditFails.
  destruct (match req_user req with Some _ => negb (audit_ok W) | None => false end);
    reflexivity.
Qed.

Lemma retrieve_served P W req sessions question retrievedChunks :
  body_question req = Some question -> question <> "" ->
  ownedByAnother (req_user req) (addressedSession W req sessions) = false ->
  performHybridSearch P (searchQueryOf question (addressedSession W req sessions))
    (neo4j W) (req_user req) = Returned retrievedChunks ->
  retrieve P W req sessions
  = (if auditFails W req then NoResponse
     else Status200 (servedPayload W req sessions question retrievedChunks),
     <[currentSessionIdOf W req :=
         servedSession W req sessions question retrievedChunks]> sessions).
Proof.
  unfold retrieve, addressedSession. intros -> Hq Hown Hsearch.
  apply String.eqb_neq in Hq. rewrite Hq. cbv zeta. rewrite Hown, Hsearch.
  unfold auditFails.
  destruct (match req_user req with Some _ => negb (audit_ok W) | None => false end);
    reflexivity.
Qed.

(** A 200 response is the response of a served request. *)
Lemma retrieve_200_served P W req sessions payload sessions1 :
  retrieve P W req sessions = (Status200 payload, sessions1) ->
  exists question retrievedChunks,
    body_question req = Some question /\ question <> ""
    /\ ownedByAnother (req_user req) (addressedSession W req sessions) = false
    /\ performHybridSearch P (searchQueryOf question (addressedSession W req sessions))
         (neo4j W) (req_user req) = Returned retrievedChunks
    /\ auditFails W req = false
    /\ payload = servedPayload W req sessions question retrievedChunks
    /\ sessions1
       = <[currentSessionIdOf W req :=
             servedSession W req sessions question retrievedChunks]> sessions.
Proof.
  intros Hrun.
  destruct (body_question req) as [question|] eqn:Hbody;
    [|rewrite retrieve_without_question in Hrun by auto; discriminate].
  destruct (String.eqb_spec question "") as [->|Hq];
    [rewrite retrieve_without_question in Hrun by auto; discriminate|].
  destruct (ownedByAnother (req_user req) (addressedSession W req sessions)) eqn:Hown;
    [rewrite (retrieve_refused _ _ _ _ question) in Hrun by auto; discriminate|].
  destruct (performHybridSearch P
              (searchQueryOf question (addressedSession W req sessions))
              (neo4j W) (req_user req)) as [retrievedChunks|message] eqn:Hsearch;
    [|rewrite (retrieve_search_failed _ _ _ _ question message) in Hrun by auto;
      destruct (auditFails W req); discriminate].
  rewrite (retrieve_served _ _ _ _ question retrievedChunks) in Hrun by auto.
  destruct (auditFails W req) eqn:Haudit; [discriminate|].
  injection Hrun as <- <-. exists question, retrievedChunks. auto 10.
Qed.

Lemma retrieve_outcomes P W req sessions :
  retrieve P W req sessions = (Status400, sessions)
  \/ retrieve P W req sessions = (Status403, sessions)
  \/ retrieve P W req sessions
     = (if auditFails W req then NoResponse else Status500, sessions)
  \/ exists question retrievedChunks,
       body_question req = Some question /\ question <> ""
       /\ ownedByAnother (req_user req) (addressedSession W req sessions) = false
       /\ performHybridSearch P
            (searchQueryOf question (addressedSession W req sessions))
            (neo4j W) (req_user req) = Returned retrievedChunks
       /\ retrieve P W req sessions
          = (if auditFails W req then NoResponse
             else Status200 (servedPayload W req sessions question retrievedChunks),
             <[currentSessionIdOf W req :=
                 servedSession W req sessions question retrievedChunks]> sessions).
Proof.
  destruct (body_question req) as [question|] eqn:Hbody;
    [|left; apply retrieve_without_question; auto].
  destruct (String.eqb_spec question "") as [->|Hq];
    [left; apply retrieve_without_question; auto|].
  destruct (ownedByAnother (req_user req) (addressedSession W req sessions)) eqn:Hown;
    [right; left; eapply retrieve_refused; eauto|].
  destruct (performHybridSearch P
              (searchQueryOf question (addressedSession W req sessions))
              (neo4j W) (req_user req)) as [retrievedChunks|message] eqn:Hsearch.
  - right. right. right. exists question, retrievedChunks.
    repeat split; auto. apply retrieve_served; auto.
  - right. right. left. eapply retrieve_search_failed; eauto.
Qed.

Lemma descending_map {A B} (f : A -> B) (key : B -> Q) l :
  descendingBy (fun a => key (f a)) l -> descendingBy key (List.map f l).
Proof.
  unfold descendingBy. induction l as [|a l IH]; simpl; intros Hs; [constructor|].
  apply StronglySorted_inv in Hs. destruct Hs as [Hrest Ha].
  constructor; [auto|].
  rewrite List.Forall_forall in Ha |- *. intros b Hb.
  apply in_map_iff in Hb. destruct Hb as (x & <- & Hx). auto.
Qed.

Lemma servedChunks_bounded_and_ordered W req sessions question retrievedChunks :
  (length (servedChunks W req sessions question retrievedChunks) <= 5)%nat
  /\ descendingBy effectiveScore (servedChunks W req sessions question retrievedChunks).
Proof.
  unfold servedChunks, topChunksOf. split.
  - apply length_slice_first.
  - apply descending_take, sort_desc_sorted.
Qed.

(** X9. A 200 response of [/api/retrieve] lists at most five passages, in
    the order of their scores, the largest first, and reports their number
    as [contextChunksUsed]. *)
Theorem response_is_bounded_and_ordered
    (P : Patterns) (W : World) (req : Request)
    (sessions sessions1 : gmap string SessionData) (payload : Payload) :
  retrieve P W req sessions = (Status200 payload, sessions1) ->
  (length (p_retrievedChunks payload) <= 5)%nat
  /\ p_contextChunksUsed payload = length (p_retrievedChunks payload)
  /\ descendingBy rc_score (p_retrievedChunks payload).
Proof.
  intros Hrun. apply retrieve_200_served in Hrun.
  destruct Hrun as (question & retrieved & _ & _ & _ & _ & _ & -> & _).
  destruct (servedChunks_bounded_and_ordered W req sessions question retrieved)
    as [Hlen Hsorted].
  simpl. rewrite length_map. repeat split; [exact Hlen|].
  apply descending_map. exact Hsorted.
Qed.

Lemma response_is_bounded_and_ordered_witness :
  (length (p_retrievedChunks
             (servedPayload Sample.world Sample.followUp Sample.sessions
                "and the history"
                [Sample.cachedHistoryChunk])) <= 5)%nat.
Proof.
  eapply proj1.
  eapply (response_is_bounded_and_ordered Sample.patterns Sample.world
            Sample.followUp Sample.sessions).
  vm_compute. reflexivity.
Defined.

(** X10. A request that is answered 400 or 403, or whose search throws,
    leaves the session store as it was; so does every request that is not
    answered 200, as long as the audit record of the caller can be
    written. *)
Theorem rejected_request_leaves_store_untouched
    (P : Patterns) (W : World) (req : Request) (sessions : gmap string SessionData) :
  (fst (retrieve P W req sessions) = Status400
   \/ fst (retrieve P W req sessions) = Status403 ->
   snd (retrieve P W req sessions) = sessions)
  /\ (forall question message,
        body_question req = Some question ->
        performHybridSearch P
          (searchQueryOf question (addressedSession W req sessions))
          (neo4j W) (req_user req) = Thrown message ->
        snd (retrieve P W req sessions) = sessions)
  /\ (auditFails W req = false ->
      (forall payload, fst (retrieve P W req sessions) <> Status200 payload) ->
      snd (retrieve P W req sessions) = sessions).
Proof.
  destruct (retrieve_outcomes P W req sessions)
    as [H|[H|[H|(question & retrieved & Hbody & Hq & Hown & Hsearch & H)]]];
    rewrite H; simpl; try (repeat split; reflexivity).
  split; [|split].
  - destruct (auditFails W req); intros [Hr|Hr]; discriminate.
  - intros question' message Hbody' Hthrown.
    rewrite Hbody in Hbody'. injection Hbody' as <-. congruence.
  - intros Haudit Hnot. rewrite Haudit in Hnot. exfalso. eapply Hnot. reflexivity.
Qed.

Lemma rejected_request_leaves_store_untouched_witness :
  snd (retrieve Sample.patterns Sample.world Scenario.emptyRequest Sample.sessions)
  = Sample.sessions.
Proof.
  apply (proj1 (rejected_request_leaves_store_untouched Sample.patterns Sample.world
                  Scenario.emptyRequest Sample.sessions)).
  left. reflexivity.
Defined.

(** X12. A request reads and writes the session it addresses only: every
    other session of the store is left as it was, however the request
    ends. *)
Theorem other_sessions_are_untouched
    (P : Patterns) (W : World) (req : Request) (sessions : gmap string SessionData)
    (sessionId : string) :
  sessionId <> currentSessionIdOf W req ->
  snd (retrieve P W req sessions) !! sessionId = sessions !! sessionId.
Proof.
  intros Hother.
  destruct (retrieve_outcomes P W req sessions)
    as [H|[H|[H|(question & retrieved & _ & _ & _ & _ & H)]]];
    rewrite H; simpl; try reflexivity.
  apply lookup_insert_ne. congruence.
Qed.

Lemma other_sessions_are_untouched_witness :
  snd (retrieve Sample.patterns Sample.world Sample.followUp Scenario.twoSessions)
  !! "s2" = Scenario.twoSessions !! "s2".
Proof.
  apply (other_sessions_are_untouched Sample.patterns Sample.world Sample.followUp
           Scenario.twoSessions "s2").
  discriminate.
Defined.

(** ** The session update: caps and the shape of the cache *)

Lemma length_slice_last_capped {A} n (l : list A) :
  (length (if (n <? length l)%nat then Js.slice_last n l else l) <= n)%nat.
Proof.
  destruct (Nat.ltb_spec n (length l)) as [H|H]; [apply slice_last_length | exact H].
Qed.

(** X13. Whatever a session held before, one update leaves at most 50
    cached passages and at most 20 topic keywords in it; a 200 response
    reports at most 50 cached passages and lists at most 5 keywords. *)
Theorem session_caches_are_capped
    (sessionData : SessionData) (user : option User)
    (userMessage botMessage : Message) (topChunks : list Chunk)
    (questionKeywords : list string) :
  let sessionData1 :=
    recordTurn sessionData user userMessage botMessage topChunks questionKeywords in
  (length (previousChunks sessionData1) <= 50)%nat
  /\ (length (topicKeywords sessionData1) <= 20)%nat
  /\ (forall P W req sessions payload sessions1,
        retrieve P W req sessions = (Status200 payload, sessions1) ->
        (p_previousChunksInSession payload <= 50)%nat
        /\ (length (p_topicKeywords payload) <= 5)%nat).
Proof.
  intros sessionData1. split; [apply length_slice_last_capped|].
  split; [apply length_slice_last_capped|].
  intros P W req sessions payload sessions1 Hrun.
  apply retrieve_200_served in Hrun.
  destruct Hrun as (question & retrieved & _ & _ & _ & _ & _ & -> & _).
  simpl. split; [apply length_slice_last_capped | apply slice_last_length].
Qed.

Lemma session_caches_are_capped_witness :
  (p_previousChunksInSession
     (servedPayload Sample.world Sample.followUp Sample.sessions "and the history"
        [Sample.cachedHistoryChunk]) <= 50)%nat.
Proof.
  eapply proj1.
  eapply (proj2 (proj2 (session_caches_are_capped Sample.anonymousSession None
                          (turn_userMessage Sample.exchange)
                          (turn_botMessage Sample.exchange) [] []))
            Sample.patterns Sample.world Sample.followUp Sample.sessions).
  vm_compute. reflexivity.
Defined.

Lemma in_map_set m key value k c :
  In (k, c) (map_set m key value) -> (k = key /\ c = value) \/ In (k, c) m.
Proof.
  induction m as [|[k0 v0] rest IH]; simpl.
  - intros [[= <- <-]|[]]. auto.
  - destruct (String.eqb_spec k0 key) as [->|Hne]; simpl.
    + intros [[= <- <-]|H]; auto.
    + intros [H|H]; [auto|]. destruct (IH H); auto.
Qed.

Lemma keys_map_set m key value k :
  In k (List.map fst (map_set m key value)) <-> k = key \/ In k (List.map fst m).
Proof.
  induction m as [|[k0 v0] rest IH]; simpl.
  - intuition.
  - destruct (String.eqb_spec k0 key) as [->|Hne]; simpl.
    + intuition.
    + rewrite IH. intuition.
Qed.

Lemma NoDup_keys_map_set m key value :
  List.NoDup (List.map fst m) -> List.NoDup (List.map fst (map_set m key value)).
Proof.
  induction m as [|[k0 v0] rest IH]; simpl; intros Hnd.
  - constructor; [simpl; tauto | constructor].
  - apply List.NoDup_cons_iff in Hnd. destruct Hnd as [Hnotin Hnd].
    destruct (String.eqb_spec k0 key) as [->|Hne]; simpl.
    + apply List.NoDup_cons_iff. auto.
    + apply List.NoDup_cons_iff. split; [|auto].
      rewrite keys_map_set. intros [H|H]; [congruence|contradiction].
Qed.

Lemma map_set_keeps_other m key value k c :
  In (k, c) m -> k <> key -> In (k, c) (map_set m key value).
Proof.
  induction m as [|[k0 v0] rest IH]; simpl; [tauto|].
  intros [[= -> ->]|H] Hne.
  - destruct (String.eqb_spec k key); [contradiction | left; reflexivity].
  - destruct (String.eqb_spec k0 key); right; auto.
Qed.

Lemma map_set_holds m key value : In (key, value) (map_set m key value).
Proof.
  induction m as [|[k0 v0] rest IH]; simpl; [auto|].
  destruct (String.eqb_spec k0 key) as [->|Hne]; [left; reflexivity | right; exact IH].
Qed.

Lemma length_map_set m key value :
  (length (map_set m key value) <= S (length m))%nat.
Proof.
  induction m as [|[k0 v0] rest IH]; simpl; [lia|].
  destruct (String.eqb k0 key); simpl; lia.
Qed.

Lemma cacheWellFormed_set cache chunk :
  cacheWellFormed cache -> cacheWellFormed (map_set cache (id chunk) chunk).
Proof.
  intros [Hnd Hkeys]. split; [apply NoDup_keys_map_set, Hnd|].
  intros k c H. apply in_map_set in H. destruct H as [[-> ->]|H]; auto.
Qed.

Lemma cacheWellFormed_fold topChunks cache :
  cacheWellFormed cache ->
  cacheWellFormed (fold_left (fun m chunk => map_set m (id chunk) chunk) topChunks cache).
Proof.
  revert cache. induction topChunks as [|c rest IH]; simpl; intros cache Hwf; [exact Hwf|].
  apply IH, cacheWellFormed_set, Hwf.
Qed.

Lemma NoDup_drop {A} n (l : list A) : List.NoDup l -> List.NoDup (drop n l).
Proof.
  revert n. induction l as [|a l IH]; intros [|n] Hnd; simpl; auto.
  apply IH. apply List.NoDup_cons_iff in Hnd. tauto.
Qed.

Lemma in_drop {A} n (x : A) l : In x (drop n l) -> In x l.
Proof.
  revert n. induction l as [|a l IH]; intros [|n]; simpl; auto.
  intros H. right. eapply IH. exact H.
Qed.

Lemma cacheWellFormed_slice_last n cache :
  cacheWellFormed cache -> cacheWellFormed (Js.slice_last n cache).
Proof.
  unfold Js.slice_last. intros [Hnd Hkeys]. split.
  - rewrite <- skipn_map. apply NoDup_drop, Hnd.
  - intros k c H. apply Hkeys. eapply in_drop. exact H.
Qed.

Lemma cacheWellFormed_recordTurn sessionData user userMessage botMessage topChunks kws :
  cacheWellFormed (previousChunks sessionData) ->
  cacheWellFormed
    (previousChunks (recordTurn sessionData user userMessage botMessage topChunks kws)).
Proof.
  intros Hwf. simpl.
  destruct (50 <? length _)%nat;
    [apply cacheWellFormed_slice_last|]; apply cacheWellFormed_fold, Hwf.
Qed.

(** X14. The cache of a session is keyed by passage identifier and never
    holds two entries for one identifier: if this holds of every session
    of the store before a request, it holds of every session after it.  It
    holds of the empty store. *)
Theorem session_cache_stays_well_formed
    (P : Patterns) (W : World) (req : Request) (sessions : gmap string SessionData) :
  (forall sessionId sessionData,
     sessions !! sessionId = Some sessionData ->
     cacheWellFormed (previousChunks sessionData)) ->
  forall sessionId sessionData,
    snd (retrieve P W req sessions) !! sessionId = Some sessionData ->
    cacheWellFormed (previousChunks sessionData).
Proof.
  intros Hstore sessionId sessionData.
  destruct (retrieve_outcomes P W req sessions)
    as [H|[H|[H|(question & retrieved & _ & _ & _ & _ & H)]]];
    rewrite H; simpl; try apply Hstore.
  destruct (decide (sessionId = currentSessionIdOf W req)) as [->|Hne].
  - rewrite lookup_insert_eq. intros [= <-].
    apply cacheWellFormed_recordTurn.
    unfold addressedSession, sessionDataOf.
    destruct (sessions !! currentSessionIdOf W req) as [sd|] eqn:Hsd.
    + eapply Hstore. exact Hsd.
    + simpl. split; [constructor | intros k c []].
  - rewrite lookup_insert_ne by congruence. apply Hstore.
Qed.

Lemma session_cache_stays_well_formed_witness :
  cacheWellFormed
    (previousChunks
       (servedSession Sample.world Sample.followUp Sample.sessions "and the history"
          [Sample.cachedHistoryChunk])).
Proof.
  apply (session_cache_stays_well_formed Sample.patterns Sample.world Sample.followUp
           Sample.sessions) with (sessionId := "s1").
  - intros sessionId sessionData H.
    destruct (decide (sessionId = "s1")) as [->|Hne].
    + vm_compute in H. injection H as <-. split.
      * repeat constructor. simpl. tauto.
      * intros k c [[= <- <-]|[]]. reflexivity.
    + unfold Sample.sessions in H. rewrite lookup_singleton_ne in H by congruence.
      discriminate.
  - vm_compute. reflexivity.
Defined.

Lemma fold_set_holds topChunks cache c :
  In c topChunks -> List.NoDup (List.map id topChunks) ->
  In (id c, c) (fold_left (fun m chunk => map_set m (id chunk) chunk) topChunks cache).
Proof.
  revert cache. induction topChunks as [|a rest IH]; simpl; intros cache Hin Hnd; [tauto|].
  apply List.NoDup_cons_iff in Hnd. destruct Hnd as [Hnotin Hnd].
  destruct Hin as [->|Hin]; [|auto].
  clear IH. assert (Hheld : In (id c, c) (map_set cache (id c) c)) by apply map_set_holds.
  revert Hheld. generalize (map_set cache (id c) c). clear cache.
  induction rest as [|b rest IH]; simpl; intros m Hheld; [exact Hheld|].
  apply List.NoDup_cons_iff in Hnd. destruct Hnd as [_ Hnd].
  apply IH; [simpl in Hnotin; tauto | exact Hnd |].
  apply map_set_keeps_other; [exact Hheld|]. simpl in Hnotin. intuition congruence.
Qed.

Lemma length_fold_set topChunks cache :
  (length (fold_left (fun m chunk => map_set m (id chunk) chunk) topChunks cache)
   <= length cache + length topChunks)%nat.
Proof.
  revert cache. induction topChunks as [|a rest IH]; simpl; intros cache; [lia|].
  specialize (IH (map_set cache (id a) a)).
  pose proof (length_map_set cache (id a) a). lia.
Qed.

(** X15. As long as the cache has room (its size and the number of
    passages used stay within 50 together), every passage used for the
    answer is found in the cache, under its identifier, after the update,
    provided the passages used have distinct identifiers. *)
Theorem used_passages_are_cached
    (sessionData : SessionData) (user : option User)
    (userMessage botMessage : Message) (topChunks : list Chunk)
    (questionKeywords : list string) (c : Chunk) :
  (length (previousChunks sessionData) + length topChunks <= 50)%nat ->
  List.NoDup (List.map id topChunks) ->
  In c topChunks ->
  In (id c, c)
    (previousChunks
       (recordTurn sessionData user userMessage botMessage topChunks questionKeywords)).
Proof.
  intros Hroom Hnd Hin. simpl.
  pose proof (length_fold_set topChunks (previousChunks sessionData)) as Hlen.
  destruct (Nat.ltb_spec 50
              (length (fold_left (fun m chunk => map_set m (id chunk) chunk) topChunks
                         (previousChunks sessionData)))) as [H|H]; [lia|].
  apply fold_set_holds; assumption.
Qed.

Lemma used_passages_are_cached_witness :
  In (id Sample.cachedHistoryChunk, Sample.cachedHistoryChunk)
    (previousChunks
       (recordTurn Sample.anonymousSession None
          (turn_userMessage Sample.exchange) (turn_botMessage Sample.exchange)
          [Sample.cachedHistoryChunk] ["history"])).
Proof.
  apply (used_passages_are_cached Sample.anonymousSession None
           (turn_userMessage Sample.exchange) (turn_botMessage Sample.exchange)
           [Sample.cachedHistoryChunk] ["history"] Sample.cachedHistoryChunk).
  - simpl. lia.
  - repeat constructor. simpl. tauto.
  - left. reflexivity.
Defined.

(** ** Follow-up questions and prior context *)

(** X16. The first question of a session, and any question of twenty
    characters or more once trimmed, is searched as it was asked and
    answered from the fresh results alone: no cached passage is merged in
    and no expanded query is reported. *)
Theorem plain_question_is_searched_verbatim
    (W : World) (req : Request) (sessions : gmap string SessionData)
    (question : string) (retrievedChunks : list Chunk) :
  history (addressedSession W req sessions) = []
  \/ (20 <= String.length (questionLowerOf question))%nat ->
  searchQueryOf question (addressedSession W req sessions) = question
  /\ servedChunks W req sessions question retrievedChunks
     = Js.slice_first 5 (sort_desc effectiveScore retrievedChunks)
  /\ p_expandedQuery (servedPayload W req sessions question retrievedChunks) = None.
Proof.
  intros Hplain.
  assert (Hfollow : isFollowUpOf question (addressedSession W req sessions) = false).
  { unfold isFollowUpOf. destruct Hplain as [-> | Hlong].
    - simpl. apply andb_false_r.
    - apply andb_false_intro1. apply Nat.ltb_ge. exact Hlong. }
  assert (Hquery : searchQueryOf question (addressedSession W req sessions) = question)
    by (unfold searchQueryOf; rewrite Hfollow; reflexivity).
  split; [exact Hquery|]. split.
  - unfold servedChunks, topChunksOf. rewrite Hfollow. reflexivity.
  - simpl. rewrite Hquery, String.eqb_refl. reflexivity.
Qed.

Lemma plain_question_is_searched_verbatim_witness :
  searchQueryOf "Describe the company history"
    (addressedSession Sample.world Sample.firstQuestion ∅)
  = "Describe the company history".
Proof.
  eapply proj1.
  apply (plain_question_is_searched_verbatim Sample.world Sample.firstQuestion ∅
           "Describe the company history" []).
  left. reflexivity.
Defined.

(** X17. A follow-up question that mentions "total" or "overall", asked
    in a session one of whose ten most recent topic keywords contains
    "charity" or "donation", is searched as the fixed charity-total query
    and not as the words of the question. *)
Theorem total_followup_on_charity_is_rewritten
    (question : string) (sessionData : SessionData) :
  isFollowUpOf question sessionData = true ->
  Js.includes (questionLowerOf question) "total" = true
  \/ Js.includes (questionLowerOf question) "overall" = true ->
  existsb (fun topic => Js.includes topic "charity" || Js.includes topic "donation")
    (Js.slice_last 10 (topicKeywords sessionData)) = true ->
  searchQueryOf question sessionData
  = "charitable donations total decade years combined philanthropic giving community support overall".
Proof.
  intros Hfollow Htotal Htopics. unfold searchQueryOf. rewrite Hfollow.
  unfold expandQuery. rewrite Htopics.
  destruct Htotal as [-> | ->]; [reflexivity|].
  rewrite orb_true_r. reflexivity.
Qed.

Lemma total_followup_on_charity_is_rewritten_witness :
  searchQueryOf "And in total?" Scenario.charitySession
  = "charitable donations total decade years combined philanthropic giving community support overall".
Proof.
  apply (total_followup_on_charity_is_rewritten "And in total?" Scenario.charitySession).
  - reflexivity.
  - left. reflexivity.
  - reflexivity.
Defined.

(** X18. The passages used for an answer are the best five of the fresh
    results together with at most two passages of the session cache.  Each
    of these is a cached passage that shares a word of more than three
    characters with the question and has passed the permission filter for
    the caller; it enters with its text, identifier, access level, tags and
    raw score, tagged [previous_context], and with four fifths of its score
    as final score.  Outside a follow-up no cached passage enters. *)
Theorem prior_context_is_limited_and_filtered
    (retrievedChunks : list Chunk) (isFollowUp : bool) (questionLower : string)
    (sessionData : SessionData) (user : option User) :
  exists prior,
    (length prior <= 2)%nat
    /\ (isFollowUp = false -> prior = [])
    /\ (forall p, In p prior ->
          In p (List.map snd (previousChunks sessionData))
          /\ (exists word,
                In word (Js.split_ws questionLower)
                /\ (3 < String.length word)%nat
                /\ Js.includes (Js.toLowerCase (text p)) word = true)
          /\ passesFilter user p)
    /\ topChunksOf retrievedChunks isFollowUp questionLower sessionData user
       = Js.slice_first 5
           (sort_desc effectiveScore
              (retrievedChunks ++
               List.map
                 (fun p =>
                    {| text := text p;
                       id := id p;
                       access_level := access_level p;
                       departments := departments p;
                       score := score p;
                       searchType := "previous_context";
                       finalScore := Some (effectiveScore p * (4 # 5))%Q |})
                 prior)).
Proof.
  unfold topChunksOf.
  destruct (isFollowUp && (0 <? length (previousChunks sessionData))%nat) eqn:Hmerge.
  - eexists. split; [|split; [|split; [|reflexivity]]].
    + rewrite filter_as_allowedBy.
      eapply Nat.le_trans;
        [apply sublist_length, filter_is_sublist | apply length_slice_first].
    + intros ->. discriminate.
    + intros p Hp. apply in_filtered in Hp. destruct Hp as [Hp Hallowed].
      apply in_slice_first, filter_In in Hp. destruct Hp as [Hcached Hrelevant].
      split; [exact Hcached|]. split; [|apply passesFilter_allowedBy, Hallowed].
      unfold isRelevantPrevious in Hrelevant. apply existsb_exists in Hrelevant.
      destruct Hrelevant as (word & Hword & Hincluded).
      apply filter_In in Hword. destruct Hword as [Hword Hlong].
      exists word. split; [exact Hword|]. split; [|exact Hincluded].
      apply Nat.ltb_lt. exact Hlong.
  - exists []. simpl. rewrite app_nil_r. repeat split; try (simpl; lia); tauto.
Qed.

Lemma prior_context_is_limited_and_filtered_witness :
  exists prior,
    (length prior <= 2)%nat
    /\ topChunksOf [Sample.cachedHistoryChunk] true "and the history"
         Sample.anonymousSession None
       = Js.slice_first 5
           (sort_desc effectiveScore
              ([Sample.cachedHistoryChunk] ++
               List.map
                 (fun p =>
                    {| text := text p;
                       id := id p;
                       access_level := access_level p;
                       departments := departments p;
                       score := score p;
                       searchType := "previous_context";
                       finalScore := Some (effectiveScore p * (4 # 5))%Q |})
                 prior)).
Proof.
  destruct (prior_context_is_limited_and_filtered [Sample.cachedHistoryChunk] true
              "and the history" Sample.anonymousSession None)
    as (prior & Hlength & _ & _ & Hused).
  exists prior. split; [exact Hlength | exact Hused].
Defined.

(** X19. A served request without a token leaves the owner of its session
    as it was: it neither takes an unowned session nor releases an owned
    one. *)
Theorem anonymous_request_keeps_owner
    (P : Patterns) (W : World) (req : Request)
    (sessions sessions1 : gmap string SessionData) (payload : Payload) :
  req_user req = None ->
  retrieve P W req sessions = (Status200 payload, sessions1) ->
  exists sessionData1,
    sessions1 !! currentSessionIdOf W req = Some sessionData1
    /\ userId sessionData1
       = match sessions !! currentSessionIdOf W req with
         | Some sessionData => userId sessionData
         | None => None
         end.
Proof.
  intros Hanon Hrun. apply retrieve_200_served in Hrun.
  destruct Hrun as (question & retrieved & _ & _ & _ & _ & _ & _ & ->).
  rewrite lookup_insert_eq. eexists. split; [reflexivity|].
  unfold servedSession, addressedSession, sessionDataOf. simpl. rewrite Hanon.
  destruct (sessions !! currentSessionIdOf W req); reflexivity.
Qed.

Lemma anonymous_request_keeps_owner_witness :
  exists sessionData1,
    snd (retrieve Sample.patterns Sample.world Sample.followUp Sample.ownedSessions)
    !! currentSessionIdOf Sample.world Sample.followUp = Some sessionData1
    /\ userId sessionData1
       = match Sample.ownedSessions !! currentSessionIdOf Sample.world Sample.followUp with
         | Some sessionData => userId sessionData
         | None => None
         end.
Proof.
  eapply (anonymous_request_keeps_owner Sample.patterns Sample.world Sample.followUp
            Sample.ownedSessions).
  - reflexivity.
  - vm_compute. reflexivity.
Defined.

Lemma sort_desc_of_sorted key arr : descendingBy key arr -> sort_desc key arr = arr.
Proof.
  unfold descendingBy. induction arr as [|a rest IH]; simpl; intros Hs; [reflexivity|].
  apply StronglySorted_inv in Hs. destruct Hs as [Hrest Ha].
  rewrite IH by exact Hrest. destruct rest as [|y r]; [reflexivity|].
  simpl. apply List.Forall_inv in Ha. apply Qle_bool_iff in Ha. rewrite Ha.
  reflexivity.
Qed.

(** X20. Sorting again the passages handed to the answer generator, by
    the same comparison, returns them unchanged: the sort that the local
    fallback generator performs in place on the array it receives does not
    alter what the handler caches and returns. *)
Theorem resorting_used_passages_changes_nothing
    (retrievedChunks : list Chunk) (isFollowUp : bool) (questionLower : string)
    (sessionData : SessionData) (user : option User) :
  sort_desc effectiveScore
    (topChunksOf retrievedChunks isFollowUp questionLower sessionData user)
  = topChunksOf retrievedChunks isFollowUp questionLower sessionData user.
Proof.
  apply sort_desc_of_sorted. unfold topChunksOf.
  apply descending_take, sort_desc_sorted.
Qed.

(** ** Ingestion: who can see what was uploaded *)

(** X21. Content uploaded by a user who is not an admin is never stored as
    [confidential] or [internal]: it becomes [departmental], tagged
    [underwriting] or [claims], or [public], tagged [all]. *)
Theorem only_admin_uploads_are_restricted
    (text_ userRole : string) (userDept : option string) :
  userRole <> "admin" ->
  determineAccessLevel text_ userRole userDept
  = {| cl_accessLevel := "departmental"; cl_departments := ["underwriting"] |}
  \/ determineAccessLevel text_ userRole userDept
     = {| cl_accessLevel := "departmental"; cl_departments := ["claims"] |}
  \/ determineAccessLevel text_ userRole userDept
     = {| cl_accessLevel := "public"; cl_departments := ["all"] |}.
Proof.
  intros Hrole. apply String.eqb_neq in Hrole.
  unfold determineAccessLevel. rewrite Hrole.
  destruct (Js.includes _ "underwriting" || Js.includes _ "risk"); [auto|].
  destruct (Js.includes _ "claims" || Js.includes _ "investigation"); auto.
Qed.

Lemma only_admin_uploads_are_restricted_witness :
  determineAccessLevel "Quarterly revenue and profit, confidential" "manager"
    (Some "Underwriting")
  = {| cl_accessLevel := "departmental"; cl_departments := ["underwriting"] |}
  \/ determineAccessLevel "Quarterly revenue and profit, confidential" "manager"
       (Some "Underwriting")
     = {| cl_accessLevel := "departmental"; cl_departments := ["claims"] |}
  \/ determineAccessLevel "Quarterly revenue and profit, confidential" "manager"
       (Some "Underwriting")
     = {| cl_accessLevel := "public"; cl_departments := ["all"] |}.
Proof.
  apply (only_admin_uploads_are_restricted
           "Quarterly revenue and profit, confidential" "manager" (Some "Underwriting")).
  discriminate.
Defined.

Lemma passesFilter_departmental caller c tag :
  access_level c = "departmental" -> departments c = [tag] ->
  Js.toLowerCase tag = tag -> tag <> "" ->
  passesFilter caller c
  <-> exists u, caller = Some u
                /\ (role u = "admin"
                    \/ exists d, department u = Some d /\ Js.toLowerCase d = tag).
Proof.
  intros Hlevel Htags Hlower Hne. rewrite passesFilter_allowedBy.
  destruct caller as [u|]; simpl.
  - unfold chunkAllowed. rewrite Hlevel, Htags. simpl. rewrite Hlower, orb_false_r.
    destruct (String.eqb_spec (role u) "admin") as [Hadmin|Hnot].
    + split; [intros _; exists u; auto | reflexivity].
    + rewrite String.eqb_eq. split.
      * intros H. exists u. split; [reflexivity|]. right.
        destruct (department u) as [d|]; [exists d; auto | congruence].
      * intros (u' & [= <-] & [Hadmin|(d & Hd & Hlow)]); [contradiction|].
        rewrite Hd. congruence.
  - rewrite Hlevel. simpl. split; [discriminate | intros (u & H & _); discriminate].
Qed.

(** X22. What a user who is not an admin uploads is found again as
    follows.  Text that mentions "underwriting" or "risk" is shown to admins
    and to users of the underwriting department, whatever the case of
    their department, and to nobody else, the uploader included; text that
    mentions none of "underwriting", "risk", "claims" and "investigation"
    is shown to every caller, with or without a token. *)
Theorem upload_visibility_follows_its_words
    (chunkId chunkText : string) (uploader : User) (score_ : Q) (tag : string)
    (caller : option User) :
  role uploader <> "admin" ->
  let lowerText := Js.toLowerCase chunkText in
  let chunk := ingestedChunk chunkId chunkText uploader score_ tag in
  (Js.includes lowerText "underwriting" || Js.includes lowerText "risk" = true ->
   (passesFilter caller chunk
    <-> exists u, caller = Some u
                  /\ (role u = "admin"
                      \/ exists d, department u = Some d
                                   /\ Js.toLowerCase d = "underwriting")))
  /\ (Js.includes lowerText "underwriting" || Js.includes lowerText "risk"
      || Js.includes lowerText "claims" || Js.includes lowerText "investigation" = false ->
      passesFilter caller chunk).
Proof.
  intros Hrole lowerText chunk. apply String.eqb_neq in Hrole. split.
  - intros Hwords. apply passesFilter_departmental; try reflexivity; try discriminate;
      unfold chunk, ingestedChunk, determineAccessLevel; simpl;
      fold lowerText; rewrite Hrole, Hwords; reflexivity.
  - intros Hnone.
    apply orb_false_elim in Hnone. destruct Hnone as [Hnone Hinv].
    apply orb_false_elim in Hnone. destruct Hnone as [Hur Hclaims].
    apply passesFilter_allowedBy.
    assert (Hpublic : access_level chunk = "public").
    { unfold chunk, ingestedChunk, determineAccessLevel. simpl. fold lowerText.
      rewrite Hrole, Hur, Hclaims, Hinv. reflexivity. }
    destruct caller as [u|]; unfold allowedBy.
    + apply chunkAllowed_public, Hpublic.
    + rewrite Hpublic. reflexivity.
Qed.

Lemma upload_visibility_follows_its_words_witness :
  ~ passesFilter (Some Sample.agent)
      (ingestedChunk "doc_9_chunk_0" "Flood risk in coastal areas" Sample.agent
         (1 # 2)%Q "vector")
  /\ passesFilter None
       (ingestedChunk "doc_9_chunk_1" "Office opening hours" Sample.agent
          (1 # 2)%Q "vector").
Proof.
  split.
  - intros H.
    apply (proj1 (upload_visibility_follows_its_words "doc_9_chunk_0"
                    "Flood risk in coastal areas" Sample.agent (1 # 2)%Q "vector"
                    (Some Sample.agent) ltac:(discriminate)) eq_refl) in H.
    destruct H as (u & [= <-] & [H|(d & [= <-] & H)]); discriminate.
  - apply (proj2 (upload_visibility_follows_its_words "doc_9_chunk_1"
                    "Office opening hours" Sample.agent (1 # 2)%Q "vector"
                    None ltac:(discriminate))).
    reflexivity.
Defined.

(** ** Clearing a session *)

Lemma ownedByAnother_of_stored caller sessionId sessions sessionData :
  sessions !! sessionId = Some sessionData ->
  ownedByAnother caller sessionData = true <-> ownedByOther caller sessionId sessions.
Proof.
  intros Hsd. rewrite ownedByAnother_iff. unfold ownedByOther. split.
  - intros (u & owner & H1 & H2 & H3). exists u, sessionData, owner. auto.
  - intros (u & sd & owner & H1 & H2 & H3 & H4). rewrite Hsd in H2.
    injection H2 as <-. exists u, owner. auto.
Qed.

(** X23. Clearing is refused exactly when the caller is authenticated and
    the session belongs to another user, and a refused request leaves the
    store as it was.  Every other request is answered 200; it removes the
    named session, if there is one, and no other: whoever then asks for the
    conversation is shown an empty one, without owner. *)
Theorem clearing_removes_exactly_the_session
    (caller : option User) (sessionId : string) (sessions : gmap string SessionData) :
  sessionId <> "" ->
  let result := clearSession caller (Some sessionId) sessions in
  (fst result = Clear403 <-> ownedByOther caller sessionId sessions)
  /\ (fst result = Clear403 -> snd result = sessions)
  /\ (fst result = Cleared200 ->
      snd result = delete sessionId sessions
      /\ forall reader,
           getConversation reader sessionId (snd result)
           = Conversation200 (emptyConversation sessionId))
  /\ (forall other, other <> sessionId -> snd result !! other = sessions !! other).
Proof.
  intros Hne result. apply String.eqb_neq in Hne.
  unfold result, clearSession. rewrite Hne.
  destruct (sessions !! sessionId) as [sessionData|] eqn:Hsd.
  - pose proof (ownedByAnother_of_stored caller sessionId sessions sessionData Hsd) as Hiff.
    destruct (ownedByAnother caller sessionData) eqn:Hown; simpl.
    + split; [tauto|]. split; [reflexivity|]. split; [discriminate|reflexivity].
    + split; [split; [discriminate | intros H; apply Hiff in H; discriminate]|].
      split; [discriminate|]. split.
      * intros _. split; [reflexivity|]. intros reader.
        unfold getConversation, sessionDataOf. rewrite lookup_delete_eq.
        destruct reader; reflexivity.
      * intros other Hother. apply lookup_delete_ne. congruence.
  - simpl. split.
    { split; [discriminate|]. intros (u & sd & owner & _ & H & _). congruence. }
    split; [discriminate|]. split; [|reflexivity].
    intros _. split.
    + symmetry. apply delete_id. exact Hsd.
    + intros reader. unfold getConversation, sessionDataOf. rewrite Hsd.
      destruct reader; reflexivity.
Qed.

Lemma clearing_removes_exactly_the_session_witness :
  fst (clearSession (Some Sample.agent) (Some "s1") Sample.ownedSessions) = Clear403
  /\ snd (clearSession (Some Sample.agent) (Some "s1") Sample.ownedSessions)
     = Sample.ownedSessions.
Proof.
  destruct (clearing_removes_exactly_the_session (Some Sample.agent) "s1"
              Sample.ownedSessions ltac:(discriminate)) as (Hiff & Hkept & _).
  assert (Hrefused :
    fst (clearSession (Some Sample.agent) (Some "s1") Sample.ownedSessions) = Clear403).
  { apply Hiff. exists Sample.agent, Sample.ownedSession, (user_id Sample.executive).
    repeat split. discriminate. }
  split; [exact Hrefused | exact (Hkept Hrefused)].
Defined.

(** X24. A caller without a token is never refused: it can clear any
    session whose identifier it knows, also one that has an owner, and the
    owner then finds the conversation empty. *)
Theorem anonymous_caller_can_clear_owned_session
    (sessionId : string) (sessions : gmap string SessionData)
    (sessionData : SessionData) (owner : User) :
  sessionId <> "" ->
  sessions !! sessionId = Some sessionData ->
  userId sessionData = Some (user_id owner) ->
  clearSession None (Some sessionId) sessions = (Cleared200, delete sessionId sessions)
  /\ getConversation (Some owner) sessionId
       (snd (clearSession None (Some sessionId) sessions))
     = Conversation200 (emptyConversation sessionId).
Proof.
  intros Hne Hsd Howner. apply String.eqb_neq in Hne.
  unfold clearSession. rewrite Hne, Hsd. simpl. split; [reflexivity|].
  unfold getConversation, sessionDataOf. rewrite lookup_delete_eq. reflexivity.
Qed.

Lemma anonymous_caller_can_clear_owned_session_witness :
  clearSession None (Some "s1") Sample.ownedSessions
  = (Cleared200, delete "s1" Sample.ownedSessions)
  /\ getConversation (Some Sample.executive) "s1"
       (snd (clearSession None (Some "s1") Sample.ownedSessions))
     = Conversation200 (emptyConversation "s1").
Proof.
  apply (anonymous_caller_can_clear_owned_session "s1" Sample.ownedSessions
           Sample.ownedSession Sample.executive).
  - discriminate.
  - reflexivity.
  - reflexivity.
Defined.

(** ** The permission test endpoint *)

Lemma not_found_is_denied user allChunks c :
  In c allChunks ->
  foundById (filterChunksByPermissions allChunks (Some user)) c = false ->
  chunkAllowed user c = false.
Proof.
  intros Hin Hnot. destruct (chunkAllowed user c) eqn:Hallowed; [|reflexivity].
  assert (Hkept : In c (filterChunksByPermissions allChunks (Some user)))
    by (apply in_filtered; auto).
  unfold foundById in Hnot.
  assert (Hfound : existsb (fun filtered => String.eqb (id filtered) (id c))
                     (filterChunksByPermissions allChunks (Some user)) = true).
  { apply existsb_exists. exists c. split; [exact Hkept | apply String.eqb_refl]. }
  congruence.
Qed.

(** X25. The report of the permission test adds up: the accessible and
    the filtered-out chunks together are all the chunks read; each sample
    holds at most three previews; every accessible sample previews a chunk
    that the filter keeps for the caller and every blocked sample one that
    it drops. *)
Theorem permission_report_is_consistent
    (user : User) (testQuestion : option string) (allChunksRun : Run)
    (report : PermissionReport) :
  testPermissions user testQuestion allChunksRun = TestPermissions200 report ->
  exists rows,
    allChunksRun = Records rows
    /\ pr_totalChunks report = length rows
    /\ (Z.of_nat (pr_accessibleChunks report) + pr_filteredOut report
        = Z.of_nat (pr_totalChunks report))%Z
    /\ (0 <= pr_filteredOut report)%Z
    /\ (length (pr_sampleAccessibleChunks report) <= 3)%nat
    /\ (length (pr_sampleBlockedChunks report) <= 3)%nat
    /\ (forall pv, In pv (pr_sampleAccessibleChunks report) ->
          exists r, In r rows /\ pv = chunkPreview (testChunk r)
                    /\ chunkAllowed user (testChunk r) = true)
    /\ (forall pv, In pv (pr_sampleBlockedChunks report) ->
          exists r, In r rows /\ pv = chunkPreview (testChunk r)
                    /\ chunkAllowed user (testChunk r) = false).
Proof.
  unfold testPermissions.
  destruct testQuestion as [q|]; [|discriminate].
  destruct (String.eqb q ""); [discriminate|].
  destruct allChunksRun as [rows|message]; [|discriminate].
  intros [= <-]. exists rows. unfold permissionReportOf.
  cbn [pr_totalChunks pr_accessibleChunks pr_filteredOut pr_sampleAccessibleChunks
       pr_sampleBlockedChunks filterChunksByPermissions].
  pose proof (sublist_length _ _ (filter_is_sublist (chunkAllowed user)
                                    (List.map testChunk rows))) as Hlen.
  rewrite !length_map in *.
  split; [reflexivity|]. split; [reflexivity|]. split; [lia|]. split; [lia|].
  split; [apply length_slice_first|]. split; [apply length_slice_first|]. split.
  - intros pv Hpv. apply in_map_iff in Hpv. destruct Hpv as (c & <- & Hc).
    apply in_slice_first, filter_In in Hc. destruct Hc as [Hc Hallowed].
    apply in_map_iff in Hc. destruct Hc as (r & <- & Hr). exists r. auto.
  - intros pv Hpv. apply in_map_iff in Hpv. destruct Hpv as (c & <- & Hc).
    apply in_slice_first, filter_In in Hc. destruct Hc as [Hc Hnot].
    apply negb_true_iff in Hnot.
    pose proof (not_found_is_denied user _ c Hc Hnot) as Hdenied.
    apply in_map_iff in Hc. destruct Hc as (r & <- & Hr). exists r. auto.
Qed.

Lemma permission_report_is_consistent_witness :
  exists rows,
    Records Scenario.libraryRows = Records rows
    /\ length rows = 5%nat.
Proof.
  destruct (permission_report_is_consistent Scenario.underwriter
              (Some "what can I see") (Records Scenario.libraryRows)
              _ eq_refl) as (rows & Hrows & Htotal & _).
  exists rows. split; [exact Hrows|].
  rewrite <- Htotal. reflexivity.
Defined.

(** ** The local answer generator *)

Lemma scanSentences_length questionLower sentences : forall relevantSentences,
  (length relevantSentences < 3)%nat ->
  (length (scanSentences questionLower relevantSentences sentences) <= 3)%nat.
Proof.
  induction sentences as [|s rest IH]; cbn [scanSentences]; intros acc Hacc; [lia|].
  destruct (isRelevantSentence _ _ && negb _); [|auto].
  destruct (Nat.leb_spec 3 (length (acc ++ [Js.trim s]))) as [H|H].
  - rewrite length_app. simpl. lia.
  - apply IH. exact H.
Qed.

Lemma scanChunks_length questionLower sortedContext : forall relevantSentences,
  (length relevantSentences < 3)%nat ->
  (length (scanChunks questionLower relevantSentences sortedContext) <= 3)%nat.
Proof.
  induction sortedContext as [|c rest IH]; cbn [scanChunks]; intros acc Hacc; [lia|].
  pose proof (scanSentences_length questionLower (sentencesOf (text c)) acc Hacc) as H1.
  destruct (Nat.leb_spec 3 (length (scanSentences questionLower acc (sentencesOf (text c)))))
    as [H|H]; [exact H1 | apply IH, H].
Qed.

Lemma scanSentences_source questionLower sentences : forall relevantSentences s,
  In s (scanSentences questionLower relevantSentences sentences) ->
  In s relevantSentences \/ exists piece, In piece sentences /\ s = Js.trim piece.
Proof.
  induction sentences as [|x rest IH]; cbn [scanSentences]; intros acc s Hs; [auto|].
  assert (Hpushed : In s (acc ++ [Js.trim x]) ->
            In s acc \/ exists piece, In piece (x :: rest) /\ s = Js.trim piece).
  { intros H. apply in_app_or in H. destruct H as [H|[<-|[]]]; [auto|].
    right. exists x. split; [left; reflexivity | reflexivity]. }
  assert (Hrest : forall acc',
            (In s acc' ->
             In s acc \/ exists piece, In piece (x :: rest) /\ s = Js.trim piece) ->
            In s (scanSentences questionLower acc' rest) ->
            In s acc \/ exists piece, In piece (x :: rest) /\ s = Js.trim piece).
  { intros acc' Hacc' H. apply IH in H. destruct H as [H|(piece & Hp & ->)]; [auto|].
    right. exists piece. split; [right; exact Hp | reflexivity]. }
  destruct (isRelevantSentence _ _ && negb _).
  - destruct (3 <=? length (acc ++ [Js.trim x]))%nat; [auto|].
    eapply Hrest; [exact Hpushed | exact Hs].
  - eapply Hrest; [|exact Hs]. auto.
Qed.

Lemma scanChunks_source questionLower sortedContext : forall relevantSentences s,
  In s (scanChunks questionLower relevantSentences sortedContext) ->
  In s relevantSentences
  \/ exists c piece, In c sortedContext /\ In piece (sentencesOf (text c))
                     /\ s = Js.trim piece.
Proof.
  induction sortedContext as [|c rest IH]; cbn [scanChunks]; intros acc s Hs; [auto|].
  assert (Hinner :
            In s (scanSentences questionLower acc (sentencesOf (text c))) ->
            In s acc
            \/ exists c' piece, In c' (c :: rest) /\ In piece (sentencesOf (text c'))
                                /\ s = Js.trim piece).
  { intros Hs'. apply scanSentences_source in Hs'.
    destruct Hs' as [Hs'|(piece & Hp & ->)]; [auto|].
    right. exists c, piece. split; [left; reflexivity | auto]. }
  destruct (3 <=? length (scanSentences questionLower acc (sentencesOf (text c))))%nat.
  - apply Hinner, Hs.
  - apply IH in Hs. destruct Hs as [Hs|(c' & piece & Hc & Hp & ->)].
    + apply Hinner, Hs.
    + right. exists c', piece. split; [right; exact Hc | auto].
Qed.

Lemma relevantSentences_length question context :
  (length (relevantSentencesOf question context) <= 3)%nat.
Proof.
  unfold relevantSentencesOf.
  destruct (Nat.eqb_spec
              (length (scanChunks (Js.toLowerCase question) []
                         (sort_desc effectiveScore context))) 0) as [H|H].
  - destruct (sort_desc effectiveScore context) as [|best rest]; [simpl; lia|].
    eapply Nat.le_trans; [apply length_slice_first | lia].
  - apply scanChunks_length. simpl. lia.
Qed.

Lemma relevantSentences_source question context sentence :
  In sentence (relevantSentencesOf question context) ->
  exists chunk, In chunk context /\ quotedFrom sentence chunk.
Proof.
  unfold relevantSentencesOf. intros Hs.
  destruct (length (scanChunks (Js.toLowerCase question) []
                      (sort_desc effectiveScore context)) =? 0)%nat.
  - destruct (sort_desc effectiveScore context) as [|best rest] eqn:Hsorted; [destruct Hs|].
    exists best. split.
    + apply (in_sort_desc effectiveScore). rewrite Hsorted. left. reflexivity.
    + apply in_slice_first, filter_In in Hs. exists sentence. tauto.
  - apply scanChunks_source in Hs.
    destruct Hs as [[]|(c & piece & Hc & Hp & ->)].
    exists c. split; [apply (in_sort_desc effectiveScore), Hc|].
    apply filter_In in Hp. exists piece. tauto.
Qed.

(** X26. The local fallback answer is the join of at most three
    sentences, and each of them is quoted from one of the passages it was
    given: a piece of the passage's text between sentence marks, as it
    stands or trimmed. *)
Theorem fallback_answer_quotes_its_context (question : string) (context : list Chunk) :
  context <> [] ->
  exists sentences,
    mockLLMGenerate question context
    = Js.trim (JsText.collapse_ws (Js.join ". " sentences))
    /\ (length sentences <= 3)%nat
    /\ forall sentence,
         In sentence sentences ->
         exists chunk, In chunk context /\ quotedFrom sentence chunk.
Proof.
  intros Hne. exists (relevantSentencesOf question context). split; [|split].
  - unfold mockLLMGenerate. destruct context; [congruence | reflexivity].
  - apply relevantSentences_length.
  - intros sentence. apply relevantSentences_source.
Qed.

Lemma fallback_answer_quotes_its_context_witness :
  exists sentences,
    mockLLMGenerate "and the history" [Sample.cachedHistoryChunk]
    = Js.trim (JsText.collapse_ws (Js.join ". " sentences))
    /\ (length sentences <= 3)%nat
    /\ forall sentence,
         In sentence sentences ->
         exists chunk, In chunk [Sample.cachedHistoryChunk] /\ quotedFrom sentence chunk.
Proof.
  apply (fallback_answer_quotes_its_context "and the history" [Sample.cachedHistoryChunk]).
  discriminate.
Defined.

(** ** Response generation *)

Lemma generation_without_context ai now question sessionId conversationHistory :
  reply (generateResponseWith ai now question [] sessionId conversationHistory)
  = {| answer :=
         "I don't have access to information that can answer your question. This might be because the information is restricted based on your access level, or it's not available in the knowledge base.";
       model := "fallback";
       tokensUsed := 0;
       gen_sessionId := sessionIdOr sessionId now;
       needsFollowUp := false |}.
Proof. reflexivity. Qed.

Lemma generation_when_down ai now question context sessionId conversationHistory :
  context <> [] ->
  (ai_health ai <> Returned true
   \/ exists message,
        ai_generate ai question context sessionId conversationHistory = Thrown message) ->
  reply (generateResponseWith ai now question context sessionId conversationHistory)
  = {| answer := mockLLMGenerate question context;
       model := "mock-fallback";
       tokensUsed := 0;
       gen_sessionId := sessionIdOr sessionId now;
       needsFollowUp := false |}.
Proof.
  intros Hne Hdown. unfold generateResponseWith.
  destruct context as [|c rest]; [congruence|]. cbn [length Nat.eqb].
  destruct (ai_health ai) as [[|]|m]; try reflexivity.
  destruct Hdown as [Hdown|(message & ->)]; [congruence | reflexivity].
Qed.

(** X27. Response generation does not fail.  Without any passage it
    answers with the fixed no-access message, tagged [fallback], whatever
    the answer service would do.  With passages, when the health check of
    the service throws or is not [ok], or when its call throws, the answer
    is the one of the local generator, tagged [mock-fallback]; otherwise it
    is the response of the service. *)
Theorem generation_recovers_locally
    (ai : AiService) (now question : string) (context : list Chunk)
    (sessionId : option string) (conversationHistory : list Message) :
  let generated :=
    generateResponseWith ai now question context sessionId conversationHistory in
  (context = [] ->
   answer (reply generated)
   = "I don't have access to information that can answer your question. This might be because the information is restricted based on your access level, or it's not available in the knowledge base."
   /\ model (reply generated) = "fallback"
   /\ tokensUsed (reply generated) = 0%nat)
  /\ (context <> [] ->
      (ai_health ai <> Returned true
       \/ exists message,
            ai_generate ai question context sessionId conversationHistory
            = Thrown message) ->
      answer (reply generated) = mockLLMGenerate question context
      /\ model (reply generated) = "mock-fallback"
      /\ tokensUsed (reply generated) = 0%nat)
  /\ (forall response,
        context <> [] -> ai_health ai = Returned true ->
        ai_generate ai question context sessionId conversationHistory
        = Returned response ->
        generated = response).
Proof.
  intros generated. unfold generated. split; [|split].
  - intros ->. rewrite generation_without_context. auto.
  - intros Hne Hdown. rewrite generation_when_down by assumption. auto.
  - intros response Hne Hhealth Hcall. unfold generateResponseWith.
    destruct context as [|c rest]; [congruence|].
    cbn [length Nat.eqb]. rewrite Hhealth, Hcall. reflexivity.
Qed.

Lemma generation_recovers_locally_witness :
  answer (reply (generateResponseWith Scenario.unreachableAi "1735725600000"
                   "and the history" [Sample.cachedHistoryChunk] (Some "s1") []))
  = mockLLMGenerate "and the history" [Sample.cachedHistoryChunk].
Proof.
  eapply proj1.
  apply (proj1 (proj2 (generation_recovers_locally Scenario.unreachableAi
                         "1735725600000" "and the history" [Sample.cachedHistoryChunk]
                         (Some "s1") []))).
  - discriminate.
  - left. discriminate.
Defined.



(** ** End to end *)

(** X29. On its main path the search never returns two passages with one
    identifier, whatever the two indexes found. *)
Theorem search_results_have_distinct_ids
    (P : Patterns) (question : string) (session : Neo4j) (user : option User)
    (vectorRows : list Row) (chunks : list Chunk) :
  vectorQuery session (limitOf P question) question = Records vectorRows ->
  performHybridSearch P question session user = Returned chunks ->
  List.NoDup (List.map id chunks).
Proof.
  unfold limitOf, isMonetaryOf, performHybridSearch. intros -> [= <-].
  apply ranking_ids_unique.
Qed.

Lemma search_results_have_distinct_ids_witness :
  List.NoDup
    (List.map id
       (rankAndFilter Sample.patterns
          (preprocessQuery Sample.patterns "Describe the company history")
          (isMonetaryOf Sample.patterns "Describe the company history")
          (Js.toLowerCase "Describe the company history")
          (List.map (chunk_of_row "vector") [Sample.historyRow])
          (List.map (chunk_of_row "keyword") [Sample.historyRow]) None)).
Proof.
  apply (search_results_have_distinct_ids Sample.patterns "Describe the company history"
           Sample.store None [Sample.historyRow]);
    reflexivity.
Defined.

(** X30. In every 200 response of [/api/retrieve], fresh and cached
    passages alike: a caller without a token is shown passages of level
    [public] only, and a passage of level [confidential] is shown only to an
    admin or to a user whose access level is at least 3. *)
Theorem response_respects_access_levels
    (P : Patterns) (W : World) (req : Request)
    (sessions sessions1 : gmap string SessionData) (payload : Payload)
    (rc : ResponseChunk) :
  retrieve P W req sessions = (Status200 payload, sessions1) ->
  In rc (p_retrievedChunks payload) ->
  (req_user req = None -> rc_accessLevel rc = "public")
  /\ (rc_accessLevel rc = "confidential" ->
      exists u, req_user req = Some u
                /\ (role u = "admin" \/ (3 <= accessLevel u)%Z)).
Proof.
  intros Hrun Hin. apply retrieve_200_served in Hrun.
  destruct Hrun as (question & retrieved & _ & _ & _ & Hsearch & _ & -> & _).
  apply in_map_iff in Hin. destruct Hin as (c & <- & Hc).
  assert (Hallowed : allowedBy (req_user req) c = true).
  { eapply topChunks_pass_filter; [|exact Hc].
    intros r Hr. eapply searched_pass_filter; eassumption. }
  simpl rc_accessLevel. destruct (req_user req) as [u|]; simpl in Hallowed; split.
  - discriminate.
  - intros Hlevel. exists u. split; [reflexivity|].
    eapply chunkAllowed_confidential; eassumption.
  - intros _. apply String.eqb_eq. exact Hallowed.
  - intros Hlevel. rewrite Hlevel in Hallowed. discriminate.
Qed.

Lemma response_respects_access_levels_witness :
  rc_accessLevel (responseChunk Sample.cachedHistoryChunk) = "public".
Proof.
  destruct (response_respects_access_levels Sample.patterns Sample.world Sample.followUp
              Sample.sessions
              (snd (retrieve Sample.patterns Sample.world Sample.followUp Sample.sessions))
              (servedPayload Sample.world Sample.followUp Sample.sessions
                 "and the history" [Sample.cachedHistoryChunk])
              (responseChunk Sample.cachedHistoryChunk)
              ltac:(vm_compute; reflexivity)
              ltac:(left; reflexivity)) as [Hpublic _].
  exact (Hpublic eq_refl).
Defined.

(** ** A request whose audit record cannot be written *)

Lemma slice_last_keeps_tail {A} n (a b : list A) :
  (length b <= n)%nat -> exists older, Js.slice_last n (a ++ b) = older ++ b.
Proof.
  intros Hb. exists (drop (length a + length b - n) a).
  unfold Js.slice_last. rewrite length_app. apply drop_app_le. lia.
Qed.

Lemma in_fold_set_add questionKeywords : forall topics k,
  In k topics \/ In k questionKeywords ->
  In k (fold_left set_add questionKeywords topics).
Proof.
  induction questionKeywords as [|w rest IH]; simpl; intros topics k H; [tauto|].
  apply IH. unfold set_add.
  destruct (Js.arr_includes topics w) eqn:Hw.
  - destruct H as [H|[<-|H]]; auto. left.
    unfold Js.arr_includes in Hw. apply existsb_exists in Hw.
    destruct Hw as (x & Hx & Heq). apply String.eqb_eq in Heq. subst x. exact Hx.
  - destruct H as [H|[<-|H]]; auto; left; apply in_or_app; simpl; auto.
Qed.

Lemma length_fold_set_add questionKeywords : forall topics,
  (length (fold_left set_add questionKeywords topics)
   <= length topics + length questionKeywords)%nat.
Proof.
  induction questionKeywords as [|w rest IH]; simpl; intros topics; [lia|].
  specialize (IH (set_add topics w)). unfold set_add in *.
  destruct (Js.arr_includes topics w); [|rewrite length_app in IH; simpl in IH]; lia.
Qed.

(** X11. When the search has returned for an authenticated caller and the
    audit log cannot be written, the caller receives no response at all,
    yet the turn has been stored: the session is in the store with the
    caller as its owner and with a history that ends with the question and
    the generated answer; as far as the caps leave room, every keyword of
    the question is among its topic keywords and every passage used, when
    their identifiers are distinct, is in its cache. *)
Theorem failed_audit_still_records_turn
    (P : Patterns) (W : World) (req : Request) (sessions : gmap string SessionData)
    (u : User) (question : string) (retrievedChunks : list Chunk) :
  req_user req = Some u -> audit_ok W = false ->
  body_question req = Some question -> question <> "" ->
  ownedByAnother (req_user req) (addressedSession W req sessions) = false ->
  performHybridSearch P (searchQueryOf question (addressedSession W req sessions))
    (neo4j W) (req_user req) = Returned retrievedChunks ->
  let before := addressedSession W req sessions in
  let topChunks :=
    topChunksOf retrievedChunks (isFollowUpOf question before)
      (questionLowerOf question) before (req_user req) in
  fst (retrieve P W req sessions) = NoResponse
  /\ exists stored older,
       snd (retrieve P W req sessions) !! currentSessionIdOf W req = Some stored
       /\ userId stored = Some (user_id u)
       /\ history stored
          = older ++
            [ {| sender := "user"; msg_text := question; timestamp := now_user W |};
              {| sender := "bot";
                 msg_text :=
                   answer (generateResponse W question topChunks
                             (currentSessionIdOf W req) (history before));
                 timestamp := now_bot W |} ]
       /\ ((length (topicKeywords before) + length (questionKeywordsOf question) <= 20)%nat ->
           forall k, In k (questionKeywordsOf question) -> In k (topicKeywords stored))
       /\ ((length (previousChunks before) + length topChunks <= 50)%nat ->
           List.NoDup (List.map id topChunks) ->
           forall c, In c topChunks -> In (id c, c) (previousChunks stored)).
Proof.
  intros Huser Haudit Hbody Hq Hown Hsearch before topChunks.
  rewrite (retrieve_served P W req sessions question retrievedChunks) by assumption.
  unfold auditFails. rewrite Huser, Haudit. cbn [negb fst snd].
  split; [reflexivity|].
  destruct (slice_last_keeps_tail 20 (history before)
              [ {| sender := "user"; msg_text := question; timestamp := now_user W |};
                {| sender := "bot";
                   msg_text :=
                     answer (generateResponse W question topChunks
                               (currentSessionIdOf W req) (history before));
                   timestamp := now_bot W |} ]) as [older Holder]; [simpl; lia|].
  exists (servedSession W req sessions question retrievedChunks), older.
  split; [apply lookup_insert_eq|].
  split; [unfold servedSession; simpl; rewrite Huser; reflexivity|].
  split; [exact Holder|]. split.
  - intros Hroom k Hk. unfold servedSession, servedChunks.
    fold before. fold topChunks.
    cbn [recordTurn topicKeywords].
    pose proof (length_fold_set_add (questionKeywordsOf question) (topicKeywords before)).
    destruct (Nat.ltb_spec 20
                (length (fold_left set_add (questionKeywordsOf question)
                           (topicKeywords before)))) as [H20|H20]; [lia|].
    apply in_fold_set_add. auto.
  - intros Hroom Hnd c Hc. unfold servedSession, servedChunks.
    fold before. fold topChunks.
    cbn [recordTurn previousChunks].
    pose proof (length_fold_set topChunks (previousChunks before)).
    destruct (Nat.ltb_spec 50
                (length (fold_left (fun m chunk => map_set m (id chunk) chunk) topChunks
                           (previousChunks before)))) as [H50|H50]; [lia|].
    apply fold_set_holds; assumption.
Qed.

Lemma failed_audit_still_records_turn_witness :
  fst (retrieve Sample.patterns Scenario.worldWithoutAudit Sample.followUpByAgent
         Sample.sessions) = NoResponse.
Proof.
  eapply proj1.
  apply (failed_audit_still_records_turn Sample.patterns Scenario.worldWithoutAudit
           Sample.followUpByAgent Sample.sessions Sample.agent "and the history"
           [Sample.cachedHistoryChunk]);
    try reflexivity.
  discriminate.
Defined.
